(** * render-status: the API client and the table builder

    A shallow embedding of [client.py] (the three fetch methods of
    [RenderClient]) and of [cli.py] ([format_timestamp],
    [get_status_color], [build_services_output]).

    Python values that come out of [response.json()] are embedded as
    [pyval]; dicts are finite maps with string keys.  Exceptions are
    values of type [exn]; a computation that may raise returns
    [exn + A].  The HTTP transport is a parameter: a function from a
    request and the state of the outside world to a response. *)

From Stdlib Require Import ZArith Ascii String List Lia Bool.
From stdpp Require Import base option list strings gmap.

Set Warnings "-register-all".
Local Open Scope Z_scope.
Local Open Scope string_scope.

(** ** Python values *)

Module Py.

(** The values [json()] can yield.  Non-integral numbers are left out:
    no function below looks inside a number. *)
Inductive pyval : Type :=
| PNone
| PBool (b : bool)
| PInt (z : Z)
| PStr (s : string)
| PList (l : list pyval)
| PDict (d : gmap string pyval).

(** Exception classes the two modules can meet.  [KeyboardInterrupt] is
    the one that does not derive from [Exception]. *)
Inductive exn_class : Type :=
| HTTPError
| KeyError
| IndexError
| TypeError
| AttributeError
| ValueError
| OverflowError
| NotRenderableError
| RuntimeError
| KeyboardInterrupt.

(** An exception: its class and [str(e)]. *)
Record exn : Type := Exn { exn_cls : exn_class; exn_str : string }.

Definition result (A : Type) : Type := (exn + A)%type.

Definition is_Exception (e : exn) : bool :=
  match exn_cls e with
  | KeyboardInterrupt => false
  | _ => true
  end.

(** [bool(v)] *)
Definition truthy (v : pyval) : bool :=
  match v with
  | PNone => false
  | PBool b => b
  | PInt z => negb (Z.eqb z 0)
  | PStr s => negb (String.eqb s "")
  | PList l => match l with [] => false | _ => true end
  | PDict d => negb (bool_decide (d = ∅))
  end.

(** [v == s] and [v != s] for a string literal [s] *)
Definition eq_str (v : pyval) (s : string) : bool :=
  match v with
  | PStr t => String.eqb t s
  | _ => false
  end.

Definition type_name (v : pyval) : string :=
  match v with
  | PNone => "NoneType"
  | PBool _ => "bool"
  | PInt _ => "int"
  | PStr _ => "str"
  | PList _ => "list"
  | PDict _ => "dict"
  end.

(** [d.get(k, default)]: an [AttributeError] on anything but a dict. *)
Definition get (v : pyval) (k : string) (dflt : pyval) : result pyval :=
  match v with
  | PDict d => inr (default dflt (d !! k))
  | _ => inl (Exn AttributeError
                ("'" +:+ type_name v +:+ "' object has no attribute 'get'"))
  end.

(** [v[k]] for a string literal [k] *)
Definition getitem (v : pyval) (k : string) : result pyval :=
  match v with
  | PDict d =>
      match d !! k with
      | Some x => inr x
      | None => inl (Exn KeyError ("'" +:+ k +:+ "'"))
      end
  | PList _ =>
      inl (Exn TypeError "list indices must be integers or slices, not str")
  | PStr _ => inl (Exn TypeError "string indices must be integers")
  | _ => inl (Exn TypeError
                ("'" +:+ type_name v +:+ "' object is not subscriptable"))
  end.

Definition chars (s : string) : list pyval :=
  (fun c => PStr (String c EmptyString)) <$> list_ascii_of_string s.

(** [v[0]] *)
Definition getitem0 (v : pyval) : result pyval :=
  match v with
  | PList (x :: _) => inr x
  | PList [] => inl (Exn IndexError "list index out of range")
  | PStr s =>
      match chars s with
      | c :: _ => inr c
      | [] => inl (Exn IndexError "string index out of range")
      end
  | PDict _ => inl (Exn KeyError "0")
  | _ => inl (Exn TypeError
                ("'" +:+ type_name v +:+ "' object is not subscriptable"))
  end.

(** The items [for item in v] runs over: the elements of a list, the
    keys of a dict, the characters of a string. *)
Definition iter (v : pyval) : result (list pyval) :=
  match v with
  | PList l => inr l
  | PDict d => inr (PStr <$> (map_to_list d).*1)
  | PStr s => inr (chars s)
  | _ => inl (Exn TypeError
                ("'" +:+ type_name v +:+ "' object is not iterable"))
  end.

(** [len(v)] *)
Definition len (v : pyval) : result Z :=
  match v with
  | PList l => inr (Z.of_nat (length l))
  | PStr s => inr (Z.of_nat (String.length s))
  | PDict d => inr (Z.of_nat (size d))
  | _ => inl (Exn TypeError
                ("object of type '" +:+ type_name v +:+ "' has no len()"))
  end.

(** [isinstance(v, dict) and k in v] *)
Definition is_dict_with (v : pyval) (k : string) : bool :=
  match v with
  | PDict d => bool_decide (is_Some (d !! k))
  | _ => false
  end.

#[global] Instance result_ret : MRet result := fun A a => inr a.
#[global] Instance result_bind : MBind result :=
  fun A B f m => match m with inl e => inl e | inr a => f a end.

End Py.
Import Py.

(** ** [str.lower] and [get_status_color] *)

Definition lower_ascii (c : ascii) : ascii :=
  let n := N_of_ascii c in
  if ((65 <=? n) && (n <=? 90))%N then ascii_of_N (n + 32) else c.

Fixpoint lower (s : string) : string :=
  match s with
  | EmptyString => EmptyString
  | String c s' => String (lower_ascii c) (lower s')
  end.

Definition upper_ascii (c : ascii) : ascii :=
  let n := N_of_ascii c in
  if ((97 <=? n) && (n <=? 122))%N then ascii_of_N (n - 32) else c.

Fixpoint upper (s : string) : string :=
  match s with
  | EmptyString => EmptyString
  | String c s' => String (upper_ascii c) (upper s')
  end.

Definition str_in (s : string) (l : list string) : bool :=
  existsb (String.eqb s) l.

Definition get_status_color (status : string) : string :=
  let status_lower := lower status in
  if str_in status_lower ["live"; "succeeded"; "success"] then "green"
  else if str_in status_lower ["building"; "deploying"; "running"] then "yellow"
  else if str_in status_lower ["build_failed"; "failed"; "canceled"] then "red"
  else "white".

(** ** The part of [datetime] that [format_timestamp] uses

    [fromisoformat] follows the grammar the library documents for it,
    [YYYY-MM-DD[*HH[:MM[:SS[.fff[fff]]]][+HH:MM[:SS[.ffffff]]]]];
    every other string is a [ValueError].  Times and offsets are counted
    in microseconds.  The local zone is a parameter ([localzone]): the
    offset and abbreviation the system reports for an instant. *)

Module Datetime.

Record tzinfo : Type := Tz { utcoffset : Z; tzname : string }.

Record datetime : Type := Datetime {
  year : Z; month : Z; day : Z;
  hour : Z; minute : Z; second : Z; microsecond : Z;
  tz : option tzinfo
}.

Definition MINYEAR : Z := 1.
Definition MAXYEAR : Z := 9999.
Definition us_per_second : Z := 1000000.
Definition us_per_day : Z := 86400 * us_per_second.

Definition is_leap (y : Z) : bool :=
  (y mod 4 =? 0)%Z && (negb (y mod 100 =? 0)%Z || (y mod 400 =? 0)%Z).

Definition days_in_month (y m : Z) : Z :=
  if (m =? 2)%Z then (if is_leap y then 29 else 28)
  else if ((m =? 4) || (m =? 6) || (m =? 9) || (m =? 11))%Z then 30
  else 31.

(** *** Reading digits *)

Definition digit_val (c : ascii) : option Z :=
  let n := N_of_ascii c in
  if ((48 <=? n) && (n <=? 57))%N then Some (Z.of_N n - 48) else None.

(** Exactly [n] decimal digits at the head of [s]: their value (after
    the accumulator [acc]) and the rest of the string. *)
Fixpoint parse_digits (n : nat) (acc : Z) (s : string) : option (Z * string) :=
  match n with
  | O => Some (acc, s)
  | S n' =>
      match s with
      | EmptyString => None
      | String c s' =>
          match digit_val c with
          | Some v => parse_digits n' (10 * acc + v) s'
          | None => None
          end
      end
  end.

(** [HH[:MM[:SS[.fff[fff]]]]], the whole of [s]: hour, minute, second,
    microsecond. *)
Definition parse_hh_mm_ss_ff (s : string) : option (Z * Z * Z * Z) :=
  '(h, r1) ← parse_digits 2 0 s;
  match r1 with
  | EmptyString => Some (h, 0, 0, 0)
  | String ":" r1' =>
      '(mi, r2) ← parse_digits 2 0 r1';
      match r2 with
      | EmptyString => Some (h, mi, 0, 0)
      | String ":" r2' =>
          '(sec, r3) ← parse_digits 2 0 r2';
          match r3 with
          | EmptyString => Some (h, mi, sec, 0)
          | String "." r3' =>
              let n := String.length r3' in
              if Nat.eqb n 3 then
                '(us, r4) ← parse_digits 3 0 r3';
                Some (h, mi, sec, us * 1000)
              else if Nat.eqb n 6 then
                '(us, r4) ← parse_digits 6 0 r3';
                Some (h, mi, sec, us)
              else None
          | _ => None
          end
      | _ => None
      end
  | _ => None
  end.

(** Splits a time string at its first [+] or [-]: the time, and the
    sign with the offset string when there is one. *)
Fixpoint split_tz (s : string) : string * option (Z * string) :=
  match s with
  | EmptyString => (EmptyString, None)
  | String c s' =>
      if Ascii.eqb c "+" then (EmptyString, Some (1, s'))
      else if Ascii.eqb c "-" then (EmptyString, Some (-1, s'))
      else let '(t, o) := split_tz s' in (String c t, o)
  end.

Definition parse_isoformat_time (tstr : string)
  : option (Z * Z * Z * Z * option Z) :=
  let '(timestr, tzpart) := split_tz tstr in
  '(h, mi, sec, us) ← parse_hh_mm_ss_ff timestr;
  match tzpart with
  | None => Some (h, mi, sec, us, None)
  | Some (sign, tzstr) =>
      let n := String.length tzstr in
      if Nat.eqb n 5 || Nat.eqb n 8 || Nat.eqb n 15 then
        '(oh, om, os, ous) ← parse_hh_mm_ss_ff tzstr;
        Some (h, mi, sec, us,
              Some (sign * (((oh * 60 + om) * 60 + os) * us_per_second + ous)))
      else None
  end.

Definition invalid_isoformat (s : string) : exn :=
  Exn ValueError ("Invalid isoformat string: '" +:+ s +:+ "'").

(** The range checks of the [datetime] and [timezone] constructors. *)
Definition fields_ok (y m d h mi sec us : Z) (off : option Z) : bool :=
  (MINYEAR <=? y)%Z && (y <=? MAXYEAR)%Z &&
  (1 <=? m)%Z && (m <=? 12)%Z &&
  (1 <=? d)%Z && (d <=? days_in_month y m)%Z &&
  (0 <=? h)%Z && (h <=? 23)%Z &&
  (0 <=? mi)%Z && (mi <=? 59)%Z &&
  (0 <=? sec)%Z && (sec <=? 59)%Z &&
  (0 <=? us)%Z && (us <? us_per_second)%Z &&
  match off with
  | None => true
  | Some o => (- us_per_day <? o)%Z && (o <? us_per_day)%Z
  end.

(** A zone built from a parsed offset; its name is never printed. *)
Definition fixed_zone (o : Z) : tzinfo := Tz o "UTC".

(** The numbers in the string: year, month, day, hour, minute, second,
    microsecond and offset. *)
Definition parse_fields (s : string)
  : option (Z * Z * Z * Z * Z * Z * Z * option Z) :=
  '(y, r1) ← parse_digits 4 0 s;
  match r1 with
  | String "-" r1' =>
      '(m, r2) ← parse_digits 2 0 r1';
      match r2 with
      | String "-" r2' =>
          '(d, r3) ← parse_digits 2 0 r2';
          '(h, mi, sec, us, off) ←
            match r3 with
            | EmptyString => Some (0, 0, 0, 0, None)
            | String _ tstr => parse_isoformat_time tstr
            end;
          Some (y, m, d, h, mi, sec, us, off)
      | _ => None
      end
  | _ => None
  end.

Definition parse_isoformat (s : string) : option datetime :=
  '(y, m, d, h, mi, sec, us, off) ← parse_fields s;
  if fields_ok y m d h mi sec us off
  then Some (Datetime y m d h mi sec us (fixed_zone <$> off))
  else None.

Definition fromisoformat (s : string) : result datetime :=
  match parse_isoformat s with
  | Some dt => inr dt
  | None => inl (invalid_isoformat s)
  end.

(** *** Adding a [timedelta] *)

Definition date : Type := (Z * Z * Z)%type.

Definition valid_date (x : date) : Prop :=
  let '(y, m, d) := x in 1 <= m <= 12 /\ 1 <= d <= days_in_month y m.

Definition next_day (x : date) : date :=
  let '(y, m, d) := x in
  if (d <? days_in_month y m)%Z then (y, m, d + 1)
  else if (m <? 12)%Z then (y, m + 1, 1)
  else (y + 1, 1, 1).

Definition prev_day (x : date) : date :=
  let '(y, m, d) := x in
  if (1 <? d)%Z then (y, m, d - 1)
  else if (1 <? m)%Z then (y, m - 1, days_in_month y (m - 1))
  else (y - 1, 12, 31).

(** [n] days later, or [- n] days earlier. *)
Definition shift_days (n : Z) (x : date) : date :=
  if (0 <=? n)%Z then Nat.iter (Z.to_nat n) next_day x
  else Nat.iter (Z.to_nat (- n)) prev_day x.

Definition date_of (dt : datetime) : date := (year dt, month dt, day dt).

(** Microseconds since midnight. *)
Definition time_us (dt : datetime) : Z :=
  ((hour dt * 60 + minute dt) * 60 + second dt) * us_per_second
  + microsecond dt.

Definition date_out_of_range : exn :=
  Exn OverflowError "date value out of range".

(** [dt + timedelta(microseconds=delta)] with the zone set to [z]: the
    time of day carries into the date, and a year outside
    [MINYEAR..MAXYEAR] is an [OverflowError]. *)
Definition add_us (dt : datetime) (delta : Z) (z : option tzinfo)
  : result datetime :=
  let t := time_us dt + delta in
  let '(y, m, d) := shift_days (t / us_per_day) (date_of dt) in
  let r := t mod us_per_day in
  if (MINYEAR <=? y)%Z && (y <=? MAXYEAR)%Z then
    inr (Datetime y m d
           (r / (3600 * us_per_second))
           ((r / (60 * us_per_second)) mod 60)
           ((r / us_per_second) mod 60)
           (r mod us_per_second)
           z)
  else inl date_out_of_range.

(** *** The local zone and [astimezone()] *)

(** What the system says about local time: the zone in force at a UTC
    instant, and the zone a wall-clock time without offset is read in. *)
Record localzone : Type := LocalZone {
  local_timezone : datetime -> tzinfo;
  local_timezone_from_local : datetime -> tzinfo
}.

Definition utc : tzinfo := Tz 0 "UTC".

(** [dt.astimezone()]: to UTC by subtracting [dt]'s own offset, then to
    the local zone by adding the local offset. *)
Definition self_zone (lz : localzone) (dt : datetime) : tzinfo :=
  match tz dt with
  | Some z => z
  | None => local_timezone_from_local lz dt
  end.

Definition astimezone (lz : localzone) (dt : datetime) : result datetime :=
  match add_us dt (- utcoffset (self_zone lz dt)) (Some utc) with
  | inl e => inl e
  | inr u =>
      let z := local_timezone lz u in
      add_us u (utcoffset z) (Some z)
  end.

(** *** [strftime] *)

Definition digit_char (z : Z) : ascii :=
  ascii_of_N (48 + Z.to_N (z mod 10)).

Definition pad2 (z : Z) : string :=
  String (digit_char (z / 10)) (String (digit_char z) EmptyString).

Definition pad4 (z : Z) : string :=
  String (digit_char (z / 1000)) (String (digit_char (z / 100)) (pad2 z)).

(** The directives the program uses, and [%%]; any other [%c] is
    copied as it is. *)
Definition directive (dt : datetime) (c : ascii) : string :=
  if Ascii.eqb c "Y" then pad4 (year dt)
  else if Ascii.eqb c "m" then pad2 (month dt)
  else if Ascii.eqb c "d" then pad2 (day dt)
  else if Ascii.eqb c "H" then pad2 (hour dt)
  else if Ascii.eqb c "M" then pad2 (minute dt)
  else if Ascii.eqb c "S" then pad2 (second dt)
  else if Ascii.eqb c "Z" then from_option tzname EmptyString (tz dt)
  else if Ascii.eqb c "%" then "%"
  else String "%" (String c EmptyString).

Fixpoint strftime (dt : datetime) (fmt : string) : string :=
  match fmt with
  | EmptyString => EmptyString
  | String c r =>
      if Ascii.eqb c "%" then
        match r with
        | EmptyString => "%"
        | String c' r' => directive dt c' +:+ strftime dt r'
        end
      else String c (strftime dt r)
  end.

End Datetime.
Import Datetime.

(** ** [format_timestamp] *)

(** [s.replace(old, new)] for a one-character [old]. *)
Fixpoint str_replace_char (old : ascii) (new : string) (s : string) : string :=
  match s with
  | EmptyString => EmptyString
  | String c s' =>
      if Ascii.eqb c old then new +:+ str_replace_char old new s'
      else String c (str_replace_char old new s')
  end.

(** [ts.replace("Z", "+00:00")]: only [str] has the method. *)
Definition replace_Z (ts : pyval) : result string :=
  match ts with
  | PStr s => inr (str_replace_char "Z" "+00:00" s)
  | _ => inl (Exn AttributeError
                ("'" +:+ type_name ts +:+ "' object has no attribute 'replace'"))
  end.

Definition is_class (c : exn_class) (e : exn) : bool :=
  match exn_cls e, c with
  | HTTPError, HTTPError | KeyError, KeyError | IndexError, IndexError
  | TypeError, TypeError
  | AttributeError, AttributeError | ValueError, ValueError
  | OverflowError, OverflowError | NotRenderableError, NotRenderableError
  | RuntimeError, RuntimeError | KeyboardInterrupt, KeyboardInterrupt => true
  | _, _ => false
  end.

Section FormatTimestamp.

Variable lz : localzone.

(** The body of the [try]. *)
Definition format_timestamp_try (ts : pyval) : result string :=
  match replace_Z ts with
  | inl e => inl e
  | inr s =>
      match fromisoformat s with
      | inl e => inl e
      | inr dt =>
          match astimezone lz dt with
          | inl e => inl e
          | inr local_dt =>
              let tz_name := strftime local_dt "%Z" in
              inr (strftime local_dt ("%Y-%m-%d %H:%M:%S " +:+ tz_name))
          end
      end
  end.

Definition format_timestamp (ts : pyval) : result pyval :=
  if negb (truthy ts) then inr (PStr "N/A")
  else
    match format_timestamp_try ts with
    | inr s => inr (PStr s)
    | inl e =>
        if is_class ValueError e || is_class AttributeError e
        then inr ts
        else inl e
    end.

End FormatTimestamp.


(** ** Tables

    What the program builds with [rich.table.Table]: a title, the header
    settings, the columns and the rows of cells. *)

Module Rich.

Record Column : Type := Col { header : string; style : string; no_wrap : bool }.

Record Table : Type := Tbl {
  title : option string;
  show_header : bool;
  header_style : string;
  columns : list Column;
  rows : list (list string)
}.

(** [Table(title=..., show_header=..., header_style=...)] *)
Definition new_table (t : option string) (sh : bool) (hs : string) : Table :=
  Tbl t sh hs [] [].

Definition default_header_style : string := "table.header".

Definition add_column (t : Table) (h st : string) (nw : bool) : Table :=
  Tbl (title t) (show_header t) (header_style t)
      (columns t ++ [Col h st nw])%list (rows t).

(** A cell is a string; [None] becomes the empty string; anything else
    cannot be rendered. *)
Definition cell (v : pyval) : result string :=
  match v with
  | PStr s => inr s
  | PNone => inr EmptyString
  | _ => inl (Exn NotRenderableError
                ("unable to render " +:+ type_name v +:+
                 "; a string or other renderable object is required"))
  end.

Definition pad_cells (n : nat) (r : list string) : list string :=
  (r ++ replicate (n - length r) EmptyString)%list.

(** [table.add_row(c1, ..., cn)]: a row shorter than the table is padded,
    a longer one adds columns without header. *)
Definition add_row (t : Table) (cells : list pyval) : result Table :=
  r ← mapM cell cells;
  let n := Nat.max (length (columns t)) (length r) in
  mret (Tbl (title t) (show_header t) (header_style t)
          (columns t ++ replicate (n - length (columns t)) (Col "" "" false))%list
          (pad_cells n <$> (rows t ++ [r])%list)).

End Rich.
Import Rich.

(** ** The transport and the client *)

(** The three endpoints.  A request carries the values that the client
    puts into the URL and the query. *)
Inductive request : Type :=
| GetServices
| GetDeploys (service_id : pyval) (limit : Z)
| GetJobs (service_id : pyval).

(** A response: what [raise_for_status()] raises, if anything, and what
    [json()] gives. *)
Record response : Type := Response {
  raise_for_status : option exn;
  json : result pyval
}.

Definition is_jobs (r : request) : bool :=
  match r with GetJobs _ => true | _ => false end.

Section Client.

(** The world outside and [httpx.Client.get]. *)
Variable World : Type.
Variable http_get : request -> World -> result response * World.

(** The state a run threads: the world and the requests sent so far. *)
Record state : Type := State { world : World; sent : list request }.

Definition M (A : Type) : Type := state -> result A * state.

#[local] Instance M_ret : MRet M := fun A a st => (inr a, st).
#[local] Instance M_bind : MBind M :=
  fun A B f m st =>
    match m st with
    | (inl e, st') => (inl e, st')
    | (inr a, st') => f a st'
    end.

Definition lift {A : Type} (r : result A) : M A := fun st => (r, st).

(** [try: m except Exception as e: h e] *)
Definition try_except {A : Type} (m : M A) (h : exn -> M A) : M A :=
  fun st =>
    match m st with
    | (inl e, st') => if is_Exception e then h e st' else (inl e, st')
    | r => r
    end.

Definition client_get (r : request) : M response :=
  fun st =>
    let '(res, w) := http_get r (world st) in
    (res, State w (sent st ++ [r])%list).

(** The first three lines of each method: the request, the status
    check and the body. *)
Definition fetch (r : request) : M pyval :=
  resp ← client_get r;
  match raise_for_status resp with
  | Some e => lift (inl e)
  | None => lift (json resp)
  end.

(** [[item[k] for item in data]] *)
Definition unwrap (k : string) (data : pyval) : result (list pyval) :=
  items ← iter data;
  mapM (fun item => getitem item k) items.

(** The [except httpx.HTTPError] clauses log and raise again: they
    leave the result as it is. *)
Definition get_services : M (list pyval) :=
  data ← fetch GetServices;
  lift (unwrap "service" data).

Definition get_deploys (service_id : pyval) (limit : Z) : M (list pyval) :=
  data ← fetch (GetDeploys service_id limit);
  lift (unwrap "deploy" data).

(** The pure part of [get_jobs]: the choice between the two shapes, and
    [len(jobs)] for the log line. *)
Definition jobs_of (data : pyval) : result pyval :=
  wrapped ←
    (if truthy data then d0 ← getitem0 data; mret (is_dict_with d0 "job")
     else mret false);
  jobs ← (if wrapped : bool
          then l ← unwrap "job" data; mret (PList l)
          else mret data);
  _ ← len jobs;
  mret jobs.

Definition get_jobs (service_id : pyval) : M pyval :=
  data ← fetch (GetJobs service_id);
  lift (jobs_of data).

(** ** [build_services_output] *)

Variable lz : localzone.

(** A [Table], or the tuple [(services_table, cron_table)]. *)
Inductive output : Type :=
| Single (table : Table)
| Both (table cron_table : Table).

Definition error_table (e : exn) : result Table :=
  add_row (new_table None false default_header_style)
    [PStr ("[red]Error fetching services: " +:+ exn_str e +:+ "[/red]")].

Definition empty_table : result Table :=
  add_row (new_table None false default_header_style)
    [PStr "[yellow]No services found[/yellow]"].

Definition services_table : Table :=
  let t := new_table (Some "Render Services") true "bold magenta" in
  let t := add_column t "Name" "cyan" true in
  let t := add_column t "Type" "blue" false in
  let t := add_column t "Status" "white" false in
  let t := add_column t "Latest Deploy" "white" false in
  add_column t "Updated" "white" false.

Definition cron_table_header : Table :=
  let t := new_table (Some "Cron Jobs") true "bold magenta" in
  let t := add_column t "Name" "cyan" true in
  let t := add_column t "Schedule" "blue" false in
  let t := add_column t "Last Run" "white" false in
  add_column t "Status" "white" false.

(** [color = get_status_color(status)] and the f-string around it;
    [status.lower()] needs a [str]. *)
Definition status_markup (status : pyval) : result string :=
  match status with
  | PStr s =>
      let color := get_status_color s in
      inr ("[bold " +:+ color +:+ "]" +:+ s +:+ "[/bold " +:+ color +:+ "]")
  | _ => inl (Exn AttributeError
                ("'" +:+ type_name status +:+ "' object has no attribute 'lower'"))
  end.

Definition error_cell : pyval := PStr "[red]Error[/red]".
Definition na : pyval := PStr "N/A".

(** The body of the inner [try]: the status and the time of the latest
    deploy. *)
Definition latest_deploy (service_id : pyval) : M (pyval * pyval) :=
  deploys ← get_deploys service_id 1;
  match deploys with
  | latest :: _ =>
      lift (status ← get latest "status" na;
            latest_status ← status_markup status;
            created ← get latest "createdAt" PNone;
            latest_deploy_time ← format_timestamp lz created;
            mret (PStr latest_status, latest_deploy_time))
  | [] => mret (na, na)
  end.

(** One turn of the first loop, up to the call of [add_row]. *)
Definition service_cells (service : pyval) : M (list pyval) :=
  service_type ← lift (get service "type" na);
  name ← lift (get service "name" na);
  service_id ← lift (get service "id" (PStr ""));
  '(latest_status, latest_deploy_time) ←
    (if negb (eq_str service_type "cron_job")
     then try_except (latest_deploy service_id) (fun _ => mret (error_cell, na))
     else mret (na, na));
  updated_at ← lift (u ← get service "updatedAt" PNone; format_timestamp lz u);
  mret [name; service_type; latest_status; latest_deploy_time; updated_at].

Fixpoint add_service_rows (services : list pyval) (table : Table) : M Table :=
  match services with
  | [] => mret table
  | service :: rest =>
      cells ← service_cells service;
      table' ← lift (add_row table cells);
      add_service_rows rest table'
  end.

(** [[s for s in services if s.get("type") == "cron_job"]] *)
Fixpoint cron_services_of (services : list pyval) : result (list pyval) :=
  match services with
  | [] => mret []
  | s :: rest =>
      t ← get s "type" PNone;
      l ← cron_services_of rest;
      mret (if eq_str t "cron_job" then s :: l else l)
  end.

Definition succeeded_cell : string := "[bold green]succeeded[/bold green]".

(** One turn of the second loop, up to the call of [add_row]. *)
Definition cron_cells (service : pyval) : result (list pyval) :=
  name ← get service "name" na;
  service_id ← get service "id" (PStr "");
  details ← get service "serviceDetails" (PDict ∅);
  schedule ← get details "schedule" na;
  details' ← get service "serviceDetails" (PDict ∅);
  last_run_ts ← get details' "lastSuccessfulRunAt" PNone;
  last_run ← (if truthy last_run_ts then format_timestamp lz last_run_ts
              else mret na);
  let job_status := if truthy last_run_ts then PStr succeeded_cell else na in
  mret [name; schedule; last_run; job_status].

Fixpoint add_cron_rows (cron_services : list pyval) (cron_table : Table)
  : result Table :=
  match cron_services with
  | [] => mret cron_table
  | service :: rest =>
      cells ← cron_cells service;
      cron_table' ← add_row cron_table cells;
      add_cron_rows rest cron_table'
  end.

Definition build_services_output : M output :=
  fun st =>
    match get_services st with
    | (inl e, st') =>
        if is_Exception e
        then lift (t ← error_table e; mret (Single t)) st'
        else (inl e, st')
    | (inr services, st') =>
        match services with
        | [] => lift (t ← empty_table; mret (Single t)) st'
        | _ =>
            (table ← add_service_rows services services_table;
             cron_services ← lift (cron_services_of services);
             match cron_services with
             | [] => mret (Single table)
             | _ =>
                 cron_table ← lift (add_cron_rows cron_services cron_table_header);
                 mret (Both table cron_table)
             end) st'
        end
    end.

End Client.

(** ** Vocabulary of the statements *)

(** The three sets of names that [get_status_color] tests. *)
Definition green_statuses : list string := ["live"; "succeeded"; "success"].
Definition yellow_statuses : list string := ["building"; "deploying"; "running"].
Definition red_statuses : list string := ["build_failed"; "failed"; "canceled"].


(** The table [t] with the rows [rs] added at the end. *)
Definition extend (t : Table) (rs : list (list string)) : Table :=
  Tbl (title t) (show_header t) (header_style t) (columns t)
      (rows t ++ rs)%list.

(** A table of [n] columns whose rows all have [n] cells. *)
Definition shaped (n : nat) (t : Table) : Prop :=
  length (columns t) = n /\ Forall (fun r => length r = n) (rows t).

Definition main_table (o : output) : Table :=
  match o with
  | Single t => t
  | Both t _ => t
  end.

Definition cron_table_of (o : output) : option Table :=
  match o with
  | Single _ => None
  | Both _ c => Some c
  end.

(** The field [k] of a service, [dflt] when it is absent or when the
    service is no dict. *)
Definition field (s : pyval) (k : string) (dflt : pyval) : pyval :=
  match s with
  | PDict d => default dflt (d !! k)
  | _ => dflt
  end.

Definition is_cron_job (s : pyval) : bool := eq_str (field s "type" na) "cron_job".

(** The timestamp the cron table takes the last run from. *)
Definition last_run_of (s : pyval) : pyval :=
  field (field s "serviceDetails" (PDict ∅)) "lastSuccessfulRunAt" PNone.

Definition cron_status (s : pyval) : string :=
  if truthy (last_run_of s) then succeeded_cell else "N/A".

(** [r] is a row of the main table for the service [s]. *)
Definition main_row_of (s : pyval) (r : list string) : Prop :=
  exists name type status latest updated,
    r = [name; type; status; latest; updated] /\
    cell (field s "name" na) = inr name /\
    cell (field s "type" na) = inr type /\
    (is_cron_job s = true -> status = "N/A" /\ latest = "N/A").

(** [r] is a row of the cron table for the service [s]. *)
Definition cron_row_of (s : pyval) (r : list string) : Prop :=
  exists name schedule last_run,
    r = [name; schedule; last_run; cron_status s] /\
    cell (field s "name" na) = inr name.

Definition no_jobs (rs : list request) : Prop :=
  Forall (fun r => is_jobs r = false) rs.

(** A computation that sends no request to the jobs endpoint. *)
(** [contains p s]: [p in s] for strings. *)
Fixpoint contains (p s : string) : bool :=
  String.prefix p s ||
  match s with
  | EmptyString => false
  | String _ s' => contains p s'
  end.

Definition has_percent (s : string) : bool :=
  existsb (Ascii.eqb "%") (list_ascii_of_string s).

(** [YYYY-MM-DD] and [HH:MM:SS] as [strftime] prints them. *)
Definition iso_date (dt : datetime) : string :=
  pad4 (year dt) +:+ "-" +:+ pad2 (month dt) +:+ "-" +:+ pad2 (day dt).

Definition clock (dt : datetime) : string :=
  pad2 (hour dt) +:+ ":" +:+ pad2 (minute dt) +:+ ":" +:+ pad2 (second dt).

(** What the range checks leave: a date of the calendar and a time of
    day within the day. *)
Definition well_formed (dt : datetime) : Prop :=
  MINYEAR <= year dt <= MAXYEAR /\
  valid_date (date_of dt) /\
  0 <= time_us dt < us_per_day /\
  forall z, tz dt = Some z -> - us_per_day < utcoffset z < us_per_day.

(** A local zone whose offsets are all less than a day. *)
Definition bounded_zone (lz : localzone) : Prop :=
  forall dt,
    - us_per_day < utcoffset (local_timezone lz dt) < us_per_day /\
    - us_per_day < utcoffset (local_timezone_from_local lz dt) < us_per_day.

Definition quiet {World A : Type} (m : M World A) : Prop :=
  forall st, exists new,
    sent World (m st).2 = (sent World st ++ new)%list /\ no_jobs new.

Definition error_row (e : exn) : list string :=
  ["[red]Error fetching services: " +:+ exn_str e +:+ "[/red]"].

Definition no_services_row : list string :=
  ["[yellow]No services found[/yellow]"].

(** The row of a service whose deploys could not be fetched. *)
Definition failed_row (name type updated : string) : list string :=
  [name; type; "[red]Error[/red]"; "N/A"; updated].

Section Rows.

Variable World : Type.
Variable http_get : request -> World -> result response * World.
Variable lz : localzone.

(** The rows the first loop adds, collected in a list. *)
Fixpoint service_rows (services : list pyval) : M World (list (list string)) :=
  match services with
  | [] => M_ret World _ []
  | s :: rest =>
      M_bind World _ _
        (fun cells =>
           M_bind World _ _
             (fun r =>
                M_bind World _ _ (fun rs => M_ret World _ (r :: rs))
                  (service_rows rest))
             (lift World (mapM cell cells)))
        (service_cells World http_get lz s)
  end.

(** The rows the second loop adds. *)
Fixpoint cron_rows (cron_services : list pyval) : result (list (list string)) :=
  match cron_services with
  | [] => mret []
  | s :: rest =>
      cells ← cron_cells lz s;
      r ← mapM cell cells;
      rs ← cron_rows rest;
      mret (r :: rs)
  end.

End Rows.

(** ** Shapes of responses *)

(** The envelope object [{k: v}]. *)
Definition envelope (k : string) (v : pyval) : pyval := PDict {[ k := v ]}.

(** A list that [get_jobs] takes as flat: its first element, if any,
    is not a dict with the key ["job"]. *)
Definition flat (jobs : list pyval) : Prop :=
  forall j, head jobs = Some j -> is_dict_with j "job" = false.

(** ** Sample data

    The values the examples below are run on: a zone on UTC and one an
    hour ahead, two services, and a transport that answers from fixed
    tables. *)

Module Sample.

Definition utc_zone : localzone := LocalZone (fun _ => utc) (fun _ => utc).

Definition cet : tzinfo := Tz (3600 * us_per_second) "CET".
Definition cet_zone : localzone := LocalZone (fun _ => cet) (fun _ => cet).

Definition dict (l : list (string * pyval)) : pyval := PDict (list_to_map l).

Definition web : pyval :=
  dict [("id", PStr "srv-1"); ("name", PStr "service-1");
        ("type", PStr "web_service");
        ("updatedAt", PStr "2025-11-25T12:00:00Z")].

Definition worker : pyval :=
  dict [("id", PStr "srv-3"); ("name", PStr "service-3");
        ("type", PStr "background_worker");
        ("updatedAt", PStr "2025-11-24T08:30:00Z")].

Definition cron : pyval :=
  dict [("id", PStr "srv-2"); ("name", PStr "service-2");
        ("type", PStr "cron_job");
        ("updatedAt", PStr "2025-11-25T01:00:00Z");
        ("serviceDetails",
         dict [("schedule", PStr "0 0 * * *");
               ("lastSuccessfulRunAt", PStr "2025-11-25T00:00:00Z")])].

Definition deploy : pyval :=
  dict [("id", PStr "dep-1"); ("status", PStr "live");
        ("createdAt", PStr "2025-11-25T12:00:00Z")].

Definition job : pyval :=
  dict [("id", PStr "job-1"); ("status", PStr "succeeded");
        ("createdAt", PStr "2025-11-25T13:00:00Z")].

Definition ok (body : pyval) : result response := inr (Response None (inr body)).

(** A transport without state: [services] is the listing, deploys of
    [srv-3] cannot be fetched, jobs come in a flat list. *)
Definition transport (services : result response) (r : request) (w : unit)
  : result response * unit :=
  match r with
  | GetServices => (services, w)
  | GetDeploys (PStr "srv-3") _ => (inl (Exn HTTPError "503 Service Unavailable"), w)
  | GetDeploys _ _ => (ok (PList [envelope "deploy" deploy]), w)
  | GetJobs _ => (ok (PList [job]), w)
  end.

Definition listing (services : list pyval) : result response :=
  ok (PList (envelope "service" <$> services)).

Definition start : state unit := State unit tt [].

(** The two tables for the listing of [web] and [cron]. *)
Definition both_tables (main_rows cron_rows : list (list string)) : output :=
  Both (extend services_table main_rows) (extend cron_table_header cron_rows).

Definition api_error : exn := Exn HTTPError "API error".

(** The rows of the two tables for the services above. *)
Definition web_row : list string :=
  ["service-1"; "web_service"; "[bold green]live[/bold green]";
   "2025-11-25 12:00:00 UTC"; "2025-11-25 12:00:00 UTC"].

Definition worker_row : list string :=
  failed_row "service-3" "background_worker" "2025-11-24 08:30:00 UTC".

Definition cron_main_row : list string :=
  ["service-2"; "cron_job"; "N/A"; "N/A"; "2025-11-25 01:00:00 UTC"].

Definition cron_row : list string :=
  ["service-2"; "0 0 * * *"; "2025-11-25 00:00:00 UTC";
   "[bold green]succeeded[/bold green]"].

(** The states of a run: after the listing, and after the deploys of
    [srv-1] and of [srv-3] were asked for. *)
Definition listed : state unit := State unit tt [GetServices].

Definition asked_1 : state unit :=
  State unit tt [GetServices; GetDeploys (PStr "srv-1") 1].

Definition asked_1_3 : state unit :=
  State unit tt [GetServices; GetDeploys (PStr "srv-1") 1;
                 GetDeploys (PStr "srv-3") 1].

End Sample.

(** ** The command line: [display_services], [generate_display], [main]

    What the program shows is kept in a [terminal]: the renderables given
    to [console.print], the frames given to [rich.live.Live], the calls of
    [time.sleep], and whether the client was closed.  The clock, the sleep
    and the environment are parameters; [argparse], [logging] and
    [load_dotenv] are left out: [main] takes the flag and the key. *)

Inductive renderable : Type :=
| RTable (t : Table)
| RStr (s : string)
| RText (s : string) (style : string)
| RGroup (items : list renderable).

(** How a run of [main] ends: the process exits, an exception leaves
    [main], or the live loop is still turning when the fuel is used up. *)
Inductive outcome : Type :=
| Exit (code : Z)
| Raised (e : exn)
| Running.

Definition nl : string := String "010"%char EmptyString.

Section Cli.

Variable World : Type.
Variable http_get : request -> World -> result response * World.
Variable lz : localzone.

(** [datetime.now()] and [time.sleep]. *)
Variable now : World -> datetime.
Variable sleep : Z -> World -> result unit * World.

Record terminal : Type := Terminal {
  base : state World;
  console : list renderable;
  frames : list renderable;
  slept : list Z;
  closed : bool
}.

Definition C (A : Type) : Type := terminal -> result A * terminal.

#[local] Instance C_ret : MRet C := fun A a t => (inr a, t).
#[local] Instance C_bind : MBind C :=
  fun A B f m t =>
    match m t with
    | (inl e, t') => (inl e, t')
    | (inr a, t') => f a t'
    end.

(** A call of the client or of the table builder. *)
Definition call {A : Type} (m : M World A) : C A :=
  fun t =>
    let '(r, st) := m (base t) in
    (r, Terminal st (console t) (frames t) (slept t) (closed t)).

Definition console_print (r : renderable) : C unit :=
  fun t =>
    (inr tt, Terminal (base t) (console t ++ [r])%list (frames t) (slept t)
               (closed t)).

(** [Live(r)] on entry and [live.update(r)]: one more frame. *)
Definition show (r : renderable) : C unit :=
  fun t =>
    (inr tt, Terminal (base t) (console t) (frames t ++ [r])%list (slept t)
               (closed t)).

Definition time_sleep (secs : Z) : C unit :=
  fun t =>
    let '(r, w) := sleep secs (world _ (base t)) in
    (r, Terminal (State _ w (sent _ (base t))) (console t) (frames t)
          (slept t ++ [secs])%list (closed t)).

(** [client.close()] at the end of the [with] block. *)
Definition close (t : terminal) : terminal :=
  Terminal (base t) (console t) (frames t) (slept t) true.

(** [now = datetime.now().astimezone()] and the two [strftime]. *)
Definition stamp (dt : datetime) : result string :=
  match astimezone lz dt with
  | inl e => inl e
  | inr local =>
      let tz_name := strftime local "%Z" in
      inr (strftime local ("%Y-%m-%d %H:%M:%S " +:+ tz_name))
  end.

Definition timestamp : C string :=
  fun t => (stamp (now (world _ (base t))), t).

Definition display_services : C unit :=
  output ← call (build_services_output World http_get lz);
  match output with
  | Both table cron_table =>
      _ ← console_print (RTable table);
      _ ← console_print (RStr nl);
      console_print (RTable cron_table)
  | Single table => console_print (RTable table)
  end.

Definition timestamp_text (ts : string) : renderable :=
  RText ("Last updated: " +:+ ts +:+ " (Ctrl+C to quit)") "dim".

Definition generate_display : C renderable :=
  output ← call (build_services_output World http_get lz);
  ts ← timestamp;
  mret match output with
       | Both table cron_table =>
           RGroup [timestamp_text ts; RText "" ""; RTable table;
                   RText "" ""; RTable cron_table]
       | Single table => RGroup [timestamp_text ts; RText "" ""; RTable table]
       end.

(** [while True: time.sleep(10); live.update(generate_display(client))],
    for at most [fuel] turns: the exception that ends the loop, or
    [None] when the loop is still turning. *)
Fixpoint live_loop (fuel : nat) (t : terminal) : option exn * terminal :=
  match fuel with
  | O => (None, t)
  | S n =>
      match time_sleep 10 t with
      | (inl e, t1) => (Some e, t1)
      | (inr _, t1) =>
          match generate_display t1 with
          | (inl e, t2) => (Some e, t2)
          | (inr r, t2) => live_loop n (show r t2).2
          end
      end
  end.

Definition missing_key : renderable :=
  RStr "[red]Error: RENDER_API_KEY not found in environment or .env file[/red]".

Definition stopped : renderable := RStr (nl +:+ "[yellow]Stopped[/yellow]").

(** [not api_key] *)
Definition no_key (api_key : option string) : bool :=
  match api_key with
  | None => true
  | Some k => String.eqb k ""
  end.

(** The block under [if args.once]. *)
Definition run_once : C unit :=
  ts ← timestamp;
  _ ← console_print (RStr ("[dim]Last updated: " +:+ ts +:+ "[/dim]" +:+ nl));
  display_services.

(** The [try] of the live mode with its [except KeyboardInterrupt]. *)
Definition run_live (fuel : nat) (t : terminal) : outcome * terminal :=
  let stop (e : exn) (t' : terminal) : outcome * terminal :=
    if is_class KeyboardInterrupt e
    then (Exit 0, (console_print stopped t').2)
    else (Raised e, t') in
  match generate_display t with
  | (inl e, t1) => stop e t1
  | (inr r, t1) =>
      match live_loop fuel (show r t1).2 with
      | (None, t2) => (Running, t2)
      | (Some e, t2) => stop e t2
      end
  end.

Definition main (once : bool) (api_key : option string) (fuel : nat)
    (t : terminal) : outcome * terminal :=
  if no_key api_key then (Exit 1, (console_print missing_key t).2)
  else if once then
    match run_once t with
    | (inl e, t') => (Raised e, close t')
    | (inr _, t') => (Exit 0, close t')
    end
  else
    match run_live fuel t with
    | (Running, t') => (Running, t')
    | (out, t') => (out, close t')
    end.

End Cli.

(** ** Vocabulary of the further statements *)

Section MoreVocabulary.

Variable World : Type.
Variable http_get : request -> World -> result response * World.

(** The ways a request can fail before its body is looked at: the
    transport raises, the status check raises, or the body is no JSON. *)
Definition request_fails (r : request) (st : state World) (e : exn)
    (w' : World) : Prop :=
  http_get r (world _ st) = (inl e, w') \/
  exists resp,
    http_get r (world _ st) = (inr resp, w') /\
    (raise_for_status resp = Some e \/
     raise_for_status resp = None /\ json resp = inl e).

Variable lz : localzone.

(** The status and the latest deploy of a service, as one turn of the
    first loop computes them. *)
Definition deploy_part (s : pyval) : M World (pyval * pyval) :=
  if negb (is_cron_job s)
  then try_except World
         (latest_deploy World http_get lz (field s "id" (PStr "")))
         (fun _ => M_ret World _ (error_cell, na))
  else M_ret World _ (na, na).

End MoreVocabulary.

(** The [serviceDetails] of a service, [{}] when the key is absent. *)
Definition details_of (s : pyval) : pyval := field s "serviceDetails" (PDict ∅).

(** [r] is the row of the cron table for [s], cell by cell. *)
Definition cron_row_cells (lz : localzone) (s : pyval) (r : list string) : Prop :=
  exists name schedule last_run,
    r = [name; schedule; last_run; cron_status s] /\
    cell (field s "name" na) = inr name /\
    cell (field (details_of s) "schedule" na) = inr schedule /\
    if truthy (last_run_of s)
    then exists v, format_timestamp lz (last_run_of s) = inr v /\
                   cell v = inr last_run
    else last_run = "N/A".

(** A web service last updated in the first hours of the year 1, and a
    cron job whose [serviceDetails] is [null]. *)
Definition ancient : pyval :=
  Sample.dict [("id", PStr "srv-9"); ("name", PStr "service-9");
               ("type", PStr "web_service");
               ("updatedAt", PStr "0001-01-01T00:00:00+05:00")].

Definition broken_cron : pyval :=
  Sample.dict [("id", PStr "srv-8"); ("name", PStr "service-8");
               ("type", PStr "cron_job"); ("serviceDetails", PNone)].

(** The [datetime] of the date [x] at [t] microseconds after midnight. *)
Definition at_time (x : date) (t : Z) (z : option tzinfo) : datetime :=
  Datetime x.1.1 x.1.2 x.2
    (t / (3600 * us_per_second))
    ((t / (60 * us_per_second)) mod 60)
    ((t / us_per_second) mod 60)
    (t mod us_per_second)
    z.

(** The wall-clock time of [dt] moved by [delta] microseconds. *)
Definition moved (dt : datetime) (delta : Z) (z : option tzinfo) : datetime :=
  at_time (shift_days ((time_us dt + delta) / us_per_day) (date_of dt))
          ((time_us dt + delta) mod us_per_day) z.

(** A world that counts the sleeps left before the user interrupts: a
    clock stopped at noon, a sleep that raises [KeyboardInterrupt] when
    the count is used up, and the sample transport on that world. *)
Definition clock_noon (w : nat) : datetime := Datetime 2025 11 25 12 0 0 0 None.

Definition nap (secs : Z) (w : nat) : result unit * nat :=
  match w with
  | O => (inl (Exn KeyboardInterrupt ""), O)
  | S n => (inr tt, n)
  end.

Definition steady (services : result response) (r : request) (w : nat)
  : result response * nat :=
  ((Sample.transport services r tt).1, w).

Definition idle : terminal nat :=
  Terminal nat (State nat 2%nat []) [] [] [] false.

Definition one_row_table (row : list string) : Table :=
  Tbl None false default_header_style [Col "" "" false] [row].

Definition noon_frame (row : list string) : renderable :=
  RGroup [timestamp_text "2025-11-25 12:00:00 UTC"; RText "" "";
          RTable (one_row_table row)].

(** A transport for one web service whose deploys cannot be asked for
    because the user interrupts the program. *)
Definition interrupted (r : request) (w : unit) : result response * unit :=
  match r with
  | GetServices =>
      (inr (Response None (inr (PList [envelope "service" Sample.web]))), w)
  | _ => (inl (Exn KeyboardInterrupt ""), w)
  end.

(** The requests for deploys that a run sends: one for each service that
    is no cron job, with limit 1. *)
Definition deploy_requests (services : list pyval) : list request :=
  (fun s => GetDeploys (field s "id" (PStr "")) 1)
    <$> List.filter (fun s => negb (is_cron_job s)) services.

(** JSON [null], a boolean or a number. *)
Definition is_scalar (v : pyval) : bool :=
  match v with
  | PNone | PBool _ | PInt _ => true
  | _ => false
  end.

(** A transport that answers every request with the body [body]. *)
Definition canned (body : pyval) (r : request) (w : unit)
  : result response * unit :=
  (inr (Response None (inr body)), w).

(** ** Tactics for the calendar *)

Ltac month_cases m :=
  let H := fresh "Hm" in
  assert (H : m = 1 \/ m = 2 \/ m = 3 \/ m = 4 \/ m = 5 \/ m = 6 \/ m = 7 \/
              m = 8 \/ m = 9 \/ m = 10 \/ m = 11 \/ m = 12) by lia;
  repeat (destruct H as [H|H]; [subst m|]); [..|subst m].

(** Sums and differences of two literals, which [cbn] leaves alone. *)
Ltac norm_lits :=
  repeat match goal with
         | |- context [Z.add (Zpos ?a) (Zpos ?b)] =>
             let v := eval vm_compute in (Z.add (Zpos a) (Zpos b)) in
             change (Z.add (Zpos a) (Zpos b)) with v
         | |- context [Z.sub (Zpos ?a) (Zpos ?b)] =>
             let v := eval vm_compute in (Z.sub (Zpos a) (Zpos b)) in
             change (Z.sub (Zpos a) (Zpos b)) with v
         end.

Ltac date_cases y m :=
  unfold valid_date, next_day, prev_day, days_in_month in *;
  month_cases m; cbn in *;
  let Hleap := fresh "Hleap" in
  destruct (is_leap y) eqn:Hleap;
  repeat (rewrite ?Hleap; norm_lits; cbn;
          match goal with
          | |- context [Z.ltb ?a ?b] => destruct (Z.ltb_spec a b)
          end);
  rewrite ?Hleap; norm_lits; cbn.

(** * Properties *)

(** ** [get_status_color] *)

Example color_LIVE : get_status_color "LIVE" = "green".
Proof. reflexivity. Qed.

Example color_unknown : get_status_color "unknown" = "white".
Proof. reflexivity. Qed.

Lemma lower_ascii_idem (c : ascii) : lower_ascii (lower_ascii c) = lower_ascii c.
Proof. destruct c as [[] [] [] [] [] [] [] []]; reflexivity. Qed.

Lemma lower_upper_ascii (c : ascii) : lower_ascii (upper_ascii c) = lower_ascii c.
Proof. destruct c as [[] [] [] [] [] [] [] []]; reflexivity. Qed.

Lemma lower_idem (s : string) : lower (lower s) = lower s.
Proof. induction s as [|c s IH]; simpl; [|rewrite lower_ascii_idem, IH]; reflexivity. Qed.

Lemma lower_upper (s : string) : lower (upper s) = lower s.
Proof. induction s as [|c s IH]; simpl; [|rewrite lower_upper_ascii, IH]; reflexivity. Qed.

Lemma str_in_In (s : string) (l : list string) : str_in s l = true <-> In s l.
Proof.
  unfold str_in. rewrite existsb_exists. split.
  - intros (x & Hx & Heq). apply String.eqb_eq in Heq. now subst.
  - intros H. exists s. split; [assumption|apply String.eqb_refl].
Qed.

Lemma str_in_not_In (s : string) (l : list string) : str_in s l = false <-> ~ In s l.
Proof.
  rewrite <- str_in_In. destruct (str_in s l); split.
  - discriminate.
  - intros H. now elim H.
  - intros _ H. discriminate.
  - reflexivity.
Qed.

(** The color is a function of the lowercased status. *)
Lemma get_status_color_lower (s t : string) :
  lower s = lower t -> get_status_color s = get_status_color t.
Proof. unfold get_status_color. intros ->. reflexivity. Qed.

(** C5: [get_status_color] does not look at the case of its argument
    (two strings with the same lowercase form, a string and its
    uppercase or lowercase form, get the same color), and the color is
    green, yellow or red exactly when the lowercased status is in the
    respective set of three names, and white exactly when it is in
    none. *)
Theorem get_status_color_mapping (status : string) :
  (forall other, lower other = lower status ->
                 get_status_color other = get_status_color status) /\
  get_status_color (upper status) = get_status_color status /\
  get_status_color (lower status) = get_status_color status /\
  (get_status_color status = "green" <-> In (lower status) green_statuses) /\
  (get_status_color status = "yellow" <-> In (lower status) yellow_statuses) /\
  (get_status_color status = "red" <-> In (lower status) red_statuses) /\
  (get_status_color status = "white" <->
   ~ In (lower status) (green_statuses ++ yellow_statuses ++ red_statuses)%list).
Proof.
  split; [intros other; apply get_status_color_lower|].
  split; [apply get_status_color_lower, lower_upper|].
  split; [apply get_status_color_lower, lower_idem|].
  unfold get_status_color. fold green_statuses yellow_statuses red_statuses.
  cbv zeta. generalize (lower status) as l. intros l.
  rewrite !in_app_iff.
  destruct (str_in l green_statuses) eqn:Hg.
  { apply str_in_In in Hg.
    repeat split; intros H; try discriminate H; try assumption; try reflexivity.
    - simpl in *. intuition (subst; discriminate).
    - simpl in *. intuition (subst; discriminate).
    - elim H. now left. }
  destruct (str_in l yellow_statuses) eqn:Hy.
  { apply str_in_In in Hy. apply str_in_not_In in Hg.
    repeat split; intros H; try discriminate H; try assumption; try reflexivity.
    - contradiction.
    - simpl in *. intuition (subst; discriminate).
    - elim H. right. now left. }
  destruct (str_in l red_statuses) eqn:Hr.
  { apply str_in_In in Hr. apply str_in_not_In in Hg, Hy.
    repeat split; intros H; try discriminate H; try assumption; try reflexivity.
    - contradiction.
    - contradiction.
    - elim H. right. now right. }
  apply str_in_not_In in Hg, Hy, Hr.
  repeat split; intros H; try discriminate H; try contradiction; try reflexivity.
  intros [?|[?|?]]; contradiction.
Qed.

(** ** The client *)

Section ClientProps.

Context {World : Type}.
Variable http_get : request -> World -> result response * World.

Lemma fetch_ok (r : request) (st : state World) resp w' data :
  http_get r (world _ st) = (inr resp, w') ->
  raise_for_status resp = None ->
  json resp = inr data ->
  fetch World http_get r st = (inr data, State _ w' (sent _ st ++ [r])%list).
Proof.
  intros Hget Hstatus Hjson.
  unfold fetch, mbind, M_bind, client_get. rewrite Hget, Hstatus.
  unfold lift. now rewrite Hjson.
Qed.

Lemma fetch_sent (r : request) (st : state World) :
  sent _ (fetch World http_get r st).2 = (sent _ st ++ [r])%list.
Proof.
  unfold fetch, mbind, M_bind, client_get.
  destruct (http_get r (world _ st)) as [[e|resp] w']; [reflexivity|].
  destruct (raise_for_status resp); reflexivity.
Qed.

Lemma getitem_envelope (k : string) (v : pyval) :
  getitem (envelope k v) k = inr v.
Proof. unfold getitem, envelope. now rewrite lookup_singleton_eq. Qed.

Lemma mapM_getitem_envelope (k : string) (l : list pyval) :
  mapM (fun item => getitem item k) (envelope k <$> l) = inr l.
Proof.
  induction l as [|x l IH]; [reflexivity|].
  rewrite fmap_cons. cbn [mapM]. rewrite getitem_envelope.
  cbn [mbind result_bind]. cbn [mapM] in IH. rewrite IH. reflexivity.
Qed.

Lemma unwrap_envelope (k : string) (l : list pyval) :
  unwrap k (PList (envelope k <$> l)) = inr l.
Proof.
  unfold unwrap. cbn [iter mbind result_bind]. apply mapM_getitem_envelope.
Qed.

Lemma is_dict_with_envelope (k : string) (v : pyval) :
  is_dict_with (envelope k v) k = true.
Proof.
  unfold is_dict_with, envelope. apply bool_decide_eq_true.
  rewrite lookup_singleton_eq. eauto.
Qed.

Lemma jobs_of_wrapped (jobs : list pyval) :
  jobs_of (PList (envelope "job" <$> jobs)) = inr (PList jobs).
Proof.
  unfold jobs_of. destruct jobs as [|j jobs]; [reflexivity|].
  rewrite fmap_cons.
  cbn [truthy getitem0 mbind result_bind mret result_ret].
  rewrite is_dict_with_envelope, <- fmap_cons, unwrap_envelope. reflexivity.
Qed.

Lemma jobs_of_flat (jobs : list pyval) :
  flat jobs -> jobs_of (PList jobs) = inr (PList jobs).
Proof.
  intros Hflat. unfold jobs_of. destruct jobs as [|j jobs]; [reflexivity|].
  cbn [truthy getitem0 mbind result_bind mret result_ret].
  rewrite (Hflat j eq_refl). reflexivity.
Qed.

Lemma jobs_of_first (first : pyval) (rest : list pyval) :
  jobs_of (PList (first :: rest)) =
  if is_dict_with first "job"
  then l ← unwrap "job" (PList (first :: rest)); mret (PList l)
  else inr (PList (first :: rest)).
Proof.
  unfold jobs_of.
  cbn [truthy getitem0 mbind result_bind mret result_ret].
  destruct (is_dict_with first "job"); [|reflexivity].
  destruct (unwrap "job" (PList (first :: rest))); reflexivity.
Qed.

(** C2: when the jobs request succeeds, [get_jobs] returns the list
    [jobs] both for the wrapped body [[{"job": j} for j in jobs]] and for
    the flat body [jobs] (flat: the first element is not a dict with the
    key ["job"]); which of the two it takes a non-empty body for depends
    on the first element alone. *)
Theorem get_jobs_both_shapes (service_id : pyval) (st : state World)
    (resp : response) (w' : World) (jobs : list pyval) :
  http_get (GetJobs service_id) (world _ st) = (inr resp, w') ->
  raise_for_status resp = None ->
  flat jobs ->
  (json resp = inr (PList (envelope "job" <$> jobs)) \/
   json resp = inr (PList jobs)) ->
  get_jobs World http_get service_id st
  = (inr (PList jobs), State _ w' (sent _ st ++ [GetJobs service_id])%list)
  /\ forall first rest,
       jobs_of (PList (first :: rest)) =
       if is_dict_with first "job"
       then l ← unwrap "job" (PList (first :: rest)); mret (PList l)
       else inr (PList (first :: rest)).
Proof.
  intros Hget Hstatus Hflat Hjson. split; [|apply jobs_of_first].
  unfold get_jobs, mbind, M_bind.
  destruct Hjson as [Hjson|Hjson];
    rewrite (fetch_ok _ _ _ _ _ Hget Hstatus Hjson); unfold lift.
  - now rewrite jobs_of_wrapped.
  - now rewrite jobs_of_flat.
Qed.

End ClientProps.

(** ** Tables *)

Lemma mapM_cell_length (cells : list pyval) (r : list string) :
  mapM cell cells = inr r -> length r = length cells.
Proof.
  revert r. induction cells as [|c cells IH]; intros r H.
  - injection H as <-. reflexivity.
  - cbn [mapM] in H. destruct (cell c) as [e|x]; [discriminate|].
    cbn [mbind result_bind] in H.
    destruct (mapM cell cells) as [e|xs] eqn:E; [discriminate|].
    injection H as <-. simpl. f_equal. now apply IH.
Qed.

Lemma pad_cells_exact (n : nat) (r : list string) :
  length r = n -> pad_cells n r = r.
Proof.
  intros <-. unfold pad_cells. rewrite Nat.sub_diag. apply app_nil_r.
Qed.

Lemma pad_cells_all (n : nat) (rs : list (list string)) :
  Forall (fun r => length r = n) rs -> pad_cells n <$> rs = rs.
Proof.
  induction 1 as [|r rs Hr _ IH]; [reflexivity|].
  rewrite fmap_cons, IH, pad_cells_exact by assumption. reflexivity.
Qed.

Lemma shaped_extend (n : nat) (t : Table) (rs : list (list string)) :
  shaped n t -> Forall (fun r => length r = n) rs -> shaped n (extend t rs).
Proof.
  intros [Hc Hr] Hrs. split; [assumption|]. simpl.
  apply Forall_app. now split.
Qed.

Lemma extend_nil (t : Table) : extend t [] = t.
Proof. destruct t. unfold extend. simpl. now rewrite app_nil_r. Qed.

Lemma extend_extend (t : Table) (rs1 rs2 : list (list string)) :
  extend (extend t rs1) rs2 = extend t (rs1 ++ rs2).
Proof. unfold extend. simpl. now rewrite app_assoc. Qed.

(** On a table of [n] columns, [add_row] with [n] cells adds the row of
    the rendered cells, and fails exactly when a cell cannot be
    rendered. *)
Lemma add_row_shaped (n : nat) (t : Table) (cells : list pyval) :
  shaped n t -> length cells = n ->
  add_row t cells = r ← mapM cell cells; mret (extend t [r]).
Proof.
  intros [Hc Hr] Hn. unfold add_row.
  destruct (mapM cell cells) as [e|r] eqn:E; [reflexivity|].
  cbn [mbind result_bind mret result_ret].
  apply mapM_cell_length in E.
  rewrite Hc, E, Hn, Nat.max_id, Nat.sub_diag. cbn [replicate].
  rewrite app_nil_r, pad_cells_all.
  - reflexivity.
  - apply Forall_app. split; [assumption|]. constructor; [lia|constructor].
Qed.

Lemma shaped_services_table : shaped 5 services_table.
Proof. split; [reflexivity|constructor]. Qed.

Lemma shaped_cron_table_header : shaped 4 cron_table_header.
Proof. split; [reflexivity|constructor]. Qed.

(** ** The table builder *)

Section BuilderProps.

Context {World : Type}.
Variable http_get : request -> World -> result response * World.
Variable lz : localzone.

Local Abbreviation St := (state World).
Local Abbreviation get_services' := (get_services World http_get).
Local Abbreviation get_deploys' := (get_deploys World http_get).
Local Abbreviation latest_deploy' := (latest_deploy World http_get lz).
Local Abbreviation service_cells' := (service_cells World http_get lz).
Local Abbreviation add_service_rows' := (add_service_rows World http_get lz).
Local Abbreviation service_rows' := (service_rows World http_get lz).
Local Abbreviation build' := (build_services_output World http_get lz).
Local Abbreviation deploy_cells id :=
  (try_except World (latest_deploy' id)
     (fun _ => M_ret World _ (error_cell, na))).

(** *** One service *)

Lemma service_cells_dict (d : gmap string pyval) (st : St) :
  service_cells' (PDict d) st =
  let s := PDict d in
  match
    (if negb (is_cron_job s)
     then deploy_cells (field s "id" (PStr ""))
     else M_ret World _ (na, na)) st
  with
  | (inl e, st') => (inl e, st')
  | (inr (ls, ld), st') =>
      match format_timestamp lz (field s "updatedAt" PNone) with
      | inl e => (inl e, st')
      | inr u => (inr [field s "name" na; field s "type" na; ls; ld; u], st')
      end
  end.
Proof.
  unfold service_cells, mbind, M_bind, lift, is_cron_job, field, get. cbv zeta.
  destruct (negb _).
  - destruct (try_except _ _ _ st) as [[e|[ls ld]] st']; [reflexivity|].
    cbn [mbind result_bind].
    destruct (format_timestamp lz _); reflexivity.
  - cbn [mret M_ret]. cbn [mbind result_bind].
    destruct (format_timestamp lz _); reflexivity.
Qed.

Lemma service_cells_not_dict (s : pyval) (st : St) :
  (forall d, s <> PDict d) -> exists e, service_cells' s st = (inl e, st).
Proof.
  intros H. destruct s; try (eexists; reflexivity). now elim (H d).
Qed.

Lemma service_cells_inv (s : pyval) (st st' : St) (cells : list pyval) :
  service_cells' s st = (inr cells, st') ->
  exists ls ld u,
    cells = [field s "name" na; field s "type" na; ls; ld; u] /\
    (exists d, s = PDict d) /\
    format_timestamp lz (field s "updatedAt" PNone) = inr u /\
    (if is_cron_job s
     then ls = na /\ ld = na /\ st' = st
     else deploy_cells (field s "id" (PStr "")) st = (inr (ls, ld), st')).
Proof.
  intros H.
  destruct s as [| | | | |d];
    try match type of H with
        | service_cells _ _ _ ?v _ = _ =>
            destruct (service_cells_not_dict v st) as [e He];
            [intros ?; discriminate|rewrite He in H; discriminate H]
        end.
  rewrite service_cells_dict in H. cbv zeta in H.
  destruct (is_cron_job (PDict d)); cbn [negb] in H.
  - cbn [M_ret] in H.
    destruct (format_timestamp lz _) as [e|u] eqn:Hu; [discriminate|].
    injection H as <- <-. exists na, na, u. eauto 10.
  - destruct (deploy_cells _ st) as [[e|[ls ld]] st1] eqn:Hd; [discriminate|].
    destruct (format_timestamp lz _) as [e|u] eqn:Hu; [discriminate|].
    injection H as <- <-. exists ls, ld, u. eauto 10.
Qed.

Lemma service_cells_length (s : pyval) (st st' : St) (cells : list pyval) :
  service_cells' s st = (inr cells, st') -> length cells = 5%nat.
Proof.
  intros H. apply service_cells_inv in H as (ls & ld & u & -> & _).
  reflexivity.
Qed.

(** A failed deploy fetch gives the error cell and leaves the time at
    ["N/A"]. *)
Lemma deploy_cells_failure (service_id : pyval) (st st' : St) (e : exn) :
  get_deploys' service_id 1 st = (inl e, st') ->
  is_Exception e = true ->
  deploy_cells service_id st = (inr (error_cell, na), st').
Proof.
  intros Hd He. unfold try_except, latest_deploy, mbind, M_bind.
  rewrite Hd, He. reflexivity.
Qed.

(** *** The first loop *)

Lemma add_service_rows_cons (s : pyval) (l : list pyval) (t : Table) (st : St) :
  add_service_rows' (s :: l) t st =
  match service_cells' s st with
  | (inl e, st1) => (inl e, st1)
  | (inr cells, st1) =>
      match add_row t cells with
      | inl e => (inl e, st1)
      | inr t1 => add_service_rows' l t1 st1
      end
  end.
Proof.
  cbn [add_service_rows]. unfold mbind, M_bind, lift.
  destruct (service_cells' s st) as [[e|cells] st1]; [reflexivity|].
  destruct (add_row t cells); reflexivity.
Qed.

Lemma service_rows_cons (s : pyval) (l : list pyval) (st : St) :
  service_rows' (s :: l) st =
  match service_cells' s st with
  | (inl e, st1) => (inl e, st1)
  | (inr cells, st1) =>
      match mapM cell cells with
      | inl e => (inl e, st1)
      | inr r =>
          match service_rows' l st1 with
          | (inl e, st2) => (inl e, st2)
          | (inr rs, st2) => (inr (r :: rs), st2)
          end
      end
  end.
Proof.
  cbn [service_rows]. unfold M_bind, lift, M_ret.
  destruct (service_cells' s st) as [[e|cells] st1]; [reflexivity|].
  destruct (mapM cell cells); [reflexivity|].
  destruct (service_rows' l st1) as [[e|rs] st2]; reflexivity.
Qed.

(** The first loop succeeds exactly when every row can be made, and
    then adds those rows. *)
Lemma add_service_rows_rows (l : list pyval) (t t' : Table) (st st' : St) :
  shaped 5 t ->
  add_service_rows' l t st = (inr t', st') <->
  exists rs, service_rows' l st = (inr rs, st') /\ t' = extend t rs.
Proof.
  revert t st. induction l as [|s l IH]; intros t st Ht.
  - cbn [add_service_rows service_rows]. unfold mret, M_ret. split.
    + intros [= <- <-]. exists []. now rewrite extend_nil.
    + intros (rs & [= <- <-] & ->). now rewrite extend_nil.
  - rewrite add_service_rows_cons, service_rows_cons.
    destruct (service_cells' s st) as [[e|cells] st1] eqn:Hc.
    { split; [discriminate|]. intros (rs & H & _). discriminate. }
    apply service_cells_length in Hc.
    rewrite (add_row_shaped 5 t cells Ht Hc).
    destruct (mapM cell cells) as [e|r] eqn:Hr; cbn [mbind result_bind mret result_ret].
    { split; [discriminate|]. intros (rs & H & _). discriminate. }
    assert (Hlen : length r = 5%nat)
      by (rewrite (mapM_cell_length _ _ Hr); exact Hc).
    rewrite IH by (apply shaped_extend; [assumption|now constructor]).
    split.
    + intros (rs & Hrs & ->). rewrite Hrs. exists (r :: rs).
      now rewrite extend_extend.
    + intros (rs & Hrs & ->).
      destruct (service_rows' l st1) as [[e|rs'] st2]; [discriminate|].
      injection Hrs as <- <-. exists rs'. now rewrite extend_extend.
Qed.

Lemma service_rows_app (l1 l2 : list pyval) (st st' : St) (rs : list (list string)) :
  service_rows' (l1 ++ l2) st = (inr rs, st') <->
  exists rs1 rs2 st1,
    service_rows' l1 st = (inr rs1, st1) /\
    service_rows' l2 st1 = (inr rs2, st') /\
    rs = (rs1 ++ rs2)%list.
Proof.
  revert st rs. induction l1 as [|s l1 IH]; intros st rs.
  - cbn [app]. split.
    + intros H. exists [], rs, st. auto.
    + intros (rs1 & rs2 & st1 & [= <- <-] & H & ->). exact H.
  - rewrite <- app_comm_cons, !service_rows_cons.
    destruct (service_cells' s st) as [[e|cells] st1].
    { split; [discriminate|]. intros (? & ? & ? & H & _). discriminate. }
    destruct (mapM cell cells) as [e|r].
    { split; [discriminate|]. intros (? & ? & ? & H & _). discriminate. }
    split.
    + destruct (service_rows' (l1 ++ l2) st1) as [[e|rs'] st2] eqn:H12;
        [discriminate|].
      intros [= <- <-]. apply IH in H12 as (rs1 & rs2 & st3 & H1 & H2 & ->).
      rewrite H1. exists (r :: rs1), rs2, st3. auto.
    + intros (rs1 & rs2 & st3 & H1 & H2 & ->).
      destruct (service_rows' l1 st1) as [[e|rs1'] st4] eqn:H1'; [discriminate|].
      injection H1 as <- <-.
      assert (H12 : service_rows' (l1 ++ l2) st1 = (inr (rs1' ++ rs2)%list, st'))
        by (apply IH; exists rs1', rs2, st4; auto).
      rewrite H12. reflexivity.
Qed.

(** *** The second loop *)

Lemma get_inv (v : pyval) (k : string) (dflt x : pyval) :
  get v k dflt = inr x -> x = field v k dflt /\ exists d, v = PDict d.
Proof.
  destruct v; try discriminate. intros [= <-]. eauto.
Qed.

Lemma cron_services_of_filter (l cs : list pyval) :
  cron_services_of l = inr cs -> cs = List.filter is_cron_job l.
Proof.
  revert cs. induction l as [|s l IH]; intros cs H.
  - injection H as <-. reflexivity.
  - cbn [cron_services_of] in H.
    destruct (get s "type" PNone) as [e|t] eqn:Ht; [discriminate|].
    cbn [mbind result_bind] in H.
    destruct (cron_services_of l) as [e|cs'] eqn:Hl; [discriminate|].
    cbn [mbind result_bind mret result_ret] in H. injection H as <-.
    rewrite (IH cs' eq_refl). cbn [List.filter].
    apply get_inv in Ht as [-> [d ->]].
    unfold is_cron_job, field.
    destruct (d !! "type") as [x|]; reflexivity.
Qed.

Lemma mapM_cell_cons (c : pyval) (cs : list pyval) (r : list string) :
  mapM cell (c :: cs) = inr r ->
  exists x xs, cell c = inr x /\ mapM cell cs = inr xs /\ r = x :: xs.
Proof.
  cbn [mapM]. destruct (cell c) as [e|x]; [discriminate|].
  cbn [mbind result_bind].
  destruct (mapM cell cs) as [e|xs]; [discriminate|].
  intros [= <-]. eauto.
Qed.

Lemma cell_PStr (s x : string) : cell (PStr s) = inr x -> x = s.
Proof. now intros [= <-]. Qed.

Lemma cron_cells_inv (s : pyval) (cells : list pyval) :
  cron_cells lz s = inr cells ->
  exists schedule last_run,
    cells = [field s "name" na; schedule; last_run;
             if truthy (last_run_of s) then PStr succeeded_cell else na].
Proof.
  unfold cron_cells. intros H.
  destruct (get s "name" na) as [e|name] eqn:H1; [discriminate|].
  apply get_inv in H1 as [-> [d ->]].
  cbn [mbind result_bind get] in H.
  destruct (get (default (PDict ∅) (d !! "serviceDetails")) "schedule" na)
    as [e|schedule] eqn:H2; [discriminate|].
  cbn [mbind result_bind] in H.
  destruct (get (default (PDict ∅) (d !! "serviceDetails"))
              "lastSuccessfulRunAt" PNone) as [e|ts] eqn:H3; [discriminate|].
  cbn [mbind result_bind] in H.
  apply get_inv in H3 as [-> _].
  change (field (default (PDict ∅) (d !! "serviceDetails"))
            "lastSuccessfulRunAt" PNone) with (last_run_of (PDict d)) in H.
  destruct (truthy (last_run_of (PDict d))).
  - destruct (format_timestamp lz _) as [e|last_run]; [discriminate|].
    cbn [mbind result_bind mret result_ret] in H. injection H as <-. eauto.
  - cbn [mbind result_bind mret result_ret] in H. injection H as <-. eauto.
Qed.

Lemma cron_rows_spec (cs : list pyval) (rs : list (list string)) :
  cron_rows lz cs = inr rs -> Forall2 cron_row_of cs rs.
Proof.
  revert rs. induction cs as [|s cs IH]; intros rs H.
  - injection H as <-. constructor.
  - cbn [cron_rows] in H.
    destruct (cron_cells lz s) as [e|cells] eqn:Hc; [discriminate|].
    cbn [mbind result_bind] in H.
    destruct (mapM cell cells) as [e|r] eqn:Hr; [discriminate|].
    cbn [mbind result_bind] in H.
    destruct (cron_rows lz cs) as [e|rs'] eqn:Hrs; [discriminate|].
    cbn [mbind result_bind mret result_ret] in H. injection H as <-.
    constructor; [|now apply IH].
    apply cron_cells_inv in Hc as (schedule & last_run & ->).
    apply mapM_cell_cons in Hr as (x1 & r1 & H1 & Hr & ->).
    apply mapM_cell_cons in Hr as (x2 & r2 & H2 & Hr & ->).
    apply mapM_cell_cons in Hr as (x3 & r3 & H3 & Hr & ->).
    apply mapM_cell_cons in Hr as (x4 & r4 & H4 & Hr & ->).
    injection Hr as <-.
    exists x1, x2, x3. split; [|assumption]. unfold cron_status.
    destruct (truthy (last_run_of s)); apply cell_PStr in H4; now subst.
Qed.

Lemma cron_cells_length (s : pyval) (cells : list pyval) :
  cron_cells lz s = inr cells -> length cells = 4%nat.
Proof. intros H. apply cron_cells_inv in H as (? & ? & ->). reflexivity. Qed.

Lemma add_cron_rows_rows (cs : list pyval) (t : Table) :
  shaped 4 t ->
  add_cron_rows lz cs t = rs ← cron_rows lz cs; mret (extend t rs).
Proof.
  revert t. induction cs as [|s cs IH]; intros t Ht.
  - cbn. now rewrite extend_nil.
  - cbn [add_cron_rows cron_rows].
    destruct (cron_cells lz s) as [e|cells] eqn:Hc; [reflexivity|].
    cbn [mbind result_bind].
    apply cron_cells_length in Hc.
    rewrite (add_row_shaped 4 t cells Ht Hc).
    destruct (mapM cell cells) as [e|r] eqn:Hr; [reflexivity|].
    cbn [mbind result_bind mret result_ret].
    assert (Hlen : length r = 4%nat)
      by (rewrite (mapM_cell_length _ _ Hr); exact Hc).
    rewrite IH by (apply shaped_extend; [assumption|now constructor]).
    destruct (cron_rows lz cs) as [e|rs]; [reflexivity|].
    cbn [mbind result_bind mret result_ret]. now rewrite extend_extend.
Qed.

(** *** The rows of the main table *)

Lemma service_rows_spec (l : list pyval) (st st' : St) (rs : list (list string)) :
  service_rows' l st = (inr rs, st') -> Forall2 main_row_of l rs.
Proof.
  revert st rs. induction l as [|s l IH]; intros st rs H.
  - injection H as <- <-. constructor.
  - rewrite service_rows_cons in H.
    destruct (service_cells' s st) as [[e|cells] st1] eqn:Hc; [discriminate|].
    destruct (mapM cell cells) as [e|r] eqn:Hr; [discriminate|].
    destruct (service_rows' l st1) as [[e|rs'] st2] eqn:Hrs; [discriminate|].
    injection H as <- <-. constructor; [|now apply IH in Hrs].
    apply service_cells_inv in Hc as (ls & ld & u & -> & _ & _ & Hcron).
    apply mapM_cell_cons in Hr as (x1 & r1 & H1 & Hr & ->).
    apply mapM_cell_cons in Hr as (x2 & r2 & H2 & Hr & ->).
    apply mapM_cell_cons in Hr as (x3 & r3 & H3 & Hr & ->).
    apply mapM_cell_cons in Hr as (x4 & r4 & H4 & Hr & ->).
    apply mapM_cell_cons in Hr as (x5 & r5 & H5 & Hr & ->).
    injection Hr as <-.
    exists x1, x2, x3, x4, x5.
    split; [reflexivity|]. split; [assumption|]. split; [assumption|].
    intros Hs. rewrite Hs in Hcron. destruct Hcron as (-> & -> & _).
    apply cell_PStr in H3, H4. now subst.
Qed.

(** *** The whole function *)

Lemma build_nonempty (st st1 : St) (services : list pyval) :
  get_services' st = (inr services, st1) ->
  services <> [] ->
  build' st =
  match add_service_rows' services services_table st1 with
  | (inl e, st2) => (inl e, st2)
  | (inr table, st2) =>
      match cron_services_of services with
      | inl e => (inl e, st2)
      | inr [] => (inr (Single table), st2)
      | inr cs =>
          match add_cron_rows lz cs cron_table_header with
          | inl e => (inl e, st2)
          | inr ct => (inr (Both table ct), st2)
          end
      end
  end.
Proof.
  intros Hs Hne. unfold build_services_output. rewrite Hs.
  destruct services as [|s l]; [now elim Hne|].
  unfold mbind at 1. unfold M_bind at 1.
  destruct (add_service_rows' (s :: l) services_table st1) as [[e|table] st2];
    [reflexivity|].
  unfold mbind at 1. unfold M_bind at 1. unfold lift at 1.
  destruct (cron_services_of (s :: l)) as [e|[|c cs]]; reflexivity.
Qed.

(** *** Requests that are sent *)

Lemma quiet_ret {A : Type} (a : A) : quiet (M_ret World A a).
Proof. intros st. exists []. split; [now rewrite app_nil_r|constructor]. Qed.

Lemma quiet_lift {A : Type} (r : result A) : quiet (lift World r).
Proof. intros st. exists []. split; [now rewrite app_nil_r|constructor]. Qed.

Lemma quiet_bind {A B : Type} (m : M World A) (f : A -> M World B) :
  quiet m -> (forall a, quiet (f a)) -> quiet (M_bind World A B f m).
Proof.
  intros Hm Hf st. unfold M_bind.
  destruct (Hm st) as (new1 & H1 & F1).
  destruct (m st) as [[e|a] st1]; cbn [snd] in *.
  - exists new1. auto.
  - destruct (Hf a st1) as (new2 & H2 & F2).
    exists (new1 ++ new2)%list. split.
    + now rewrite H2, H1, app_assoc.
    + apply Forall_app. now split.
Qed.

Lemma quiet_try_except {A : Type} (m : M World A) (h : exn -> M World A) :
  quiet m -> (forall e, quiet (h e)) -> quiet (try_except World m h).
Proof.
  intros Hm Hh st. unfold try_except.
  destruct (Hm st) as (new1 & H1 & F1).
  destruct (m st) as [[e|a] st1]; cbn [snd] in *.
  - destruct (is_Exception e); [|exists new1; auto].
    destruct (Hh e st1) as (new2 & H2 & F2).
    exists (new1 ++ new2)%list. split.
    + now rewrite H2, H1, app_assoc.
    + apply Forall_app. now split.
  - exists new1. auto.
Qed.

Lemma quiet_fetch (r : request) :
  is_jobs r = false -> quiet (fetch World http_get r).
Proof.
  intros Hr st. exists [r]. split; [apply fetch_sent|].
  constructor; [assumption|constructor].
Qed.

Lemma quiet_get_services : quiet get_services'.
Proof.
  apply quiet_bind; [now apply quiet_fetch|]. intros a. apply quiet_lift.
Qed.

Lemma quiet_get_deploys (service_id : pyval) (limit : Z) :
  quiet (get_deploys' service_id limit).
Proof.
  apply quiet_bind; [now apply quiet_fetch|]. intros a. apply quiet_lift.
Qed.

Lemma quiet_latest_deploy (service_id : pyval) : quiet (latest_deploy' service_id).
Proof.
  apply quiet_bind; [apply quiet_get_deploys|].
  intros [|latest deploys]; [apply quiet_ret|apply quiet_lift].
Qed.

Lemma quiet_service_cells (s : pyval) : quiet (service_cells' s).
Proof.
  unfold service_cells.
  apply quiet_bind; [apply quiet_lift|]. intros service_type.
  apply quiet_bind; [apply quiet_lift|]. intros name.
  apply quiet_bind; [apply quiet_lift|]. intros service_id.
  apply quiet_bind.
  - destruct (negb _); [|apply quiet_ret].
    apply quiet_try_except; [apply quiet_latest_deploy|].
    intros e. apply quiet_ret.
  - intros [latest_status latest_deploy_time].
    apply quiet_bind; [apply quiet_lift|]. intros updated_at. apply quiet_ret.
Qed.

Lemma quiet_add_service_rows (l : list pyval) (t : Table) :
  quiet (add_service_rows' l t).
Proof.
  revert t. induction l as [|s l IH]; intros t; [apply quiet_ret|].
  cbn [add_service_rows].
  apply quiet_bind; [apply quiet_service_cells|]. intros cells.
  apply quiet_bind; [apply quiet_lift|]. intros t'. apply IH.
Qed.

Lemma quiet_build : quiet build'.
Proof.
  intros st. unfold build_services_output.
  destruct (quiet_get_services st) as (new1 & H1 & F1).
  destruct (get_services' st) as [[e|services] st1]; cbn [snd] in H1.
  - destruct (is_Exception e); cbn [lift snd]; exists new1; auto.
  - destruct services as [|s l]; [cbn [lift snd]; exists new1; auto|].
    assert (Hq : quiet
      (M_bind World _ _
         (fun table =>
            M_bind World _ _
              (fun cron_services =>
                 match cron_services with
                 | [] => M_ret World _ (Single table)
                 | _ :: _ =>
                     M_bind World _ _
                       (fun cron_table => M_ret World _ (Both table cron_table))
                       (lift World (add_cron_rows lz cron_services
                                      cron_table_header))
                 end)
              (lift World (cron_services_of (s :: l))))
         (add_service_rows' (s :: l) services_table))).
    { apply quiet_bind; [apply quiet_add_service_rows|]. intros table.
      apply quiet_bind; [apply quiet_lift|]. intros [|c cs]; [apply quiet_ret|].
      apply quiet_bind; [apply quiet_lift|]. intros ct. apply quiet_ret. }
    destruct (Hq st1) as (new2 & H2 & F2).
    exists (new1 ++ new2)%list. split.
    + etransitivity; [exact H2|]. now rewrite H1, app_assoc.
    + apply Forall_app. now split.
Qed.

(** *** Services that are dicts *)

Lemma service_rows_dicts (l : list pyval) (st st' : St) (rs : list (list string)) :
  service_rows' l st = (inr rs, st') -> Forall (fun s => exists d, s = PDict d) l.
Proof.
  revert st rs. induction l as [|s l IH]; intros st rs H; [constructor|].
  rewrite service_rows_cons in H.
  destruct (service_cells' s st) as [[e|cells] st1] eqn:Hc; [discriminate|].
  destruct (mapM cell cells) as [e|r]; [discriminate|].
  destruct (service_rows' l st1) as [[e|rs'] st2] eqn:Hrs; [discriminate|].
  injection H as <- <-.
  constructor; [|now apply IH in Hrs].
  now apply service_cells_inv in Hc as (? & ? & ? & _ & Hd & _).
Qed.

Lemma cron_services_of_dicts (l : list pyval) :
  Forall (fun s => exists d, s = PDict d) l ->
  cron_services_of l = inr (List.filter is_cron_job l).
Proof.
  induction 1 as [|s l [d ->] _ IH]; [reflexivity|].
  cbn [cron_services_of get mbind result_bind]. rewrite IH.
  cbn [mbind result_bind mret result_ret List.filter].
  unfold is_cron_job, field. destruct (d !! "type"); reflexivity.
Qed.

(** A run that gets past the listing and succeeds: the main table is
    the empty services table with one row per service, the cron table
    the empty cron table with one row per cron service. *)
Lemma build_success (st st1 st' : St) (services : list pyval) (out : output) :
  get_services' st = (inr services, st1) ->
  services <> [] ->
  build' st = (inr out, st') ->
  exists rs crs,
    service_rows' services st1 = (inr rs, st') /\
    cron_rows lz (List.filter is_cron_job services) = inr crs /\
    out = match List.filter is_cron_job services with
          | [] => Single (extend services_table rs)
          | _ => Both (extend services_table rs) (extend cron_table_header crs)
          end.
Proof.
  intros Hs Hne Hb. rewrite (build_nonempty _ _ _ Hs Hne) in Hb.
  destruct (add_service_rows' services services_table st1)
    as [[e|table] st2] eqn:Hrows; [discriminate|].
  apply add_service_rows_rows in Hrows as (rs & Hrs & ->);
    [|apply shaped_services_table].
  rewrite (cron_services_of_dicts _ (service_rows_dicts _ _ _ _ Hrs)) in Hb.
  rewrite add_cron_rows_rows in Hb by apply shaped_cron_table_header.
  destruct (List.filter is_cron_job services) as [|c cs] eqn:Hcs.
  - injection Hb as <- <-. exists rs, []. auto.
  - destruct (cron_rows lz (c :: cs)) as [e|crs]; [discriminate|].
    cbn [mbind result_bind mret result_ret] in Hb.
    injection Hb as <- <-. exists rs, crs. auto.
Qed.

(** The converse: when the rows can be made, the run succeeds. *)
Lemma build_from_rows (st st1 st' : St) (services : list pyval)
    (rs crs : list (list string)) :
  get_services' st = (inr services, st1) ->
  services <> [] ->
  service_rows' services st1 = (inr rs, st') ->
  cron_rows lz (List.filter is_cron_job services) = inr crs ->
  build' st =
  (inr match List.filter is_cron_job services with
       | [] => Single (extend services_table rs)
       | _ => Both (extend services_table rs) (extend cron_table_header crs)
       end, st').
Proof.
  intros Hs Hne Hrs Hcrs. rewrite (build_nonempty _ _ _ Hs Hne).
  assert (Hrows : add_service_rows' services services_table st1
                  = (inr (extend services_table rs), st'))
    by (apply add_service_rows_rows; [apply shaped_services_table|eauto]).
  rewrite Hrows.
  rewrite (cron_services_of_dicts _ (service_rows_dicts _ _ _ _ Hrs)).
  rewrite add_cron_rows_rows by apply shaped_cron_table_header.
  destruct (List.filter is_cron_job services) as [|c cs]; [reflexivity|].
  rewrite Hcrs. reflexivity.
Qed.

(** *** The statements about [build_services_output] *)

(** C7: when [get_services] raises an exception, [build_services_output]
    does not raise: it returns one table, without header, whose only row
    is the message ["Error fetching services: "] followed by the text of
    the exception. *)
Theorem listing_failure_gives_error_table (st st' : St) (e : exn) :
  get_services' st = (inl e, st') ->
  is_Exception e = true ->
  exists t,
    build' st = (inr (Single t), st') /\
    show_header t = false /\
    rows t = [error_row e].
Proof.
  intros Hs He. unfold build_services_output. rewrite Hs, He.
  eexists. split; [reflexivity|]. split; reflexivity.
Qed.

(** C8: when [get_services] returns the empty list,
    [build_services_output] does not raise: it returns one table whose only
    row says ["No services found"]. *)
Theorem no_services_gives_placeholder (st st' : St) :
  get_services' st = (inr [], st') ->
  exists t,
    build' st = (inr (Single t), st') /\
    show_header t = false /\
    rows t = [no_services_row].
Proof.
  intros Hs. unfold build_services_output. rewrite Hs.
  eexists. split; [reflexivity|]. split; reflexivity.
Qed.

(** C10: for a non-empty list of services, the main table of a run has
    one row per service, in the order of the list; the row of a cron job
    has ["N/A"] as status and as latest deploy; and there is a cron table
    exactly when the list has cron jobs, with one row for each of them,
    in order. *)
Theorem main_table_has_every_service (st st1 st' : St)
    (services : list pyval) (out : output) :
  get_services' st = (inr services, st1) ->
  services <> [] ->
  build' st = (inr out, st') ->
  Forall2 main_row_of services (rows (main_table out)) /\
  length (rows (main_table out)) = length services /\
  Forall2 cron_row_of (List.filter is_cron_job services)
          (from_option rows [] (cron_table_of out)) /\
  (cron_table_of out = None <-> List.filter is_cron_job services = []).
Proof.
  intros Hs Hne Hb.
  destruct (build_success _ _ _ _ _ Hs Hne Hb) as (rs & crs & Hrs & Hcrs & ->).
  assert (Hmain : Forall2 main_row_of services rs)
    by (eapply service_rows_spec; eassumption).
  apply cron_rows_spec in Hcrs.
  destruct (List.filter is_cron_job services) as [|c cs];
    cbn [main_table cron_table_of from_option extend rows services_table
         cron_table_header add_column new_table app].
  - repeat split; try assumption; try reflexivity.
    + symmetry. eapply Forall2_length. eassumption.
    + constructor.
  - repeat split; try assumption; try discriminate.
    symmetry. eapply Forall2_length. eassumption.
Qed.

Lemma rows_of_service_rows (l : list pyval) (t : Table) (st st' : St) :
  add_service_rows' l services_table st = (inr t, st') ->
  service_rows' l st = (inr (rows t), st').
Proof.
  intros H. apply add_service_rows_rows in H as (rs & Hrs & ->);
    [|apply shaped_services_table].
  exact Hrs.
Qed.

(** The row of a service whose deploy fetch fails. *)
Lemma service_rows_failure (s : pyval) (st st' : St) (e : exn) (u : pyval)
    (name type updated : string) :
  (exists d, s = PDict d) ->
  is_cron_job s = false ->
  get_deploys' (field s "id" (PStr "")) 1 st = (inl e, st') ->
  is_Exception e = true ->
  cell (field s "name" na) = inr name ->
  cell (field s "type" na) = inr type ->
  format_timestamp lz (field s "updatedAt" PNone) = inr u ->
  cell u = inr updated ->
  service_rows' [s] st = (inr [failed_row name type updated], st').
Proof.
  intros [d ->] Hcron Hd He Hname Htype Hu Hupd.
  rewrite service_rows_cons, service_cells_dict. cbv zeta.
  rewrite Hcron. cbn [negb].
  rewrite (deploy_cells_failure _ _ _ _ Hd He), Hu.
  cbn [mapM]. rewrite Hname, Htype, Hupd. reflexivity.
Qed.

(** C4: when the deploy fetch fails for one service [s] of the list
    [pre ++ s :: post], the run goes on: the main table has the rows of
    [pre], then the row of [s] with the error mark as status and ["N/A"]
    as latest deploy, then the rows of [post], each as it is built without
    the failure; the table has one row per service. *)
Theorem deploy_failure_is_inline (st st1 st2 st3 st4 : St)
    (pre post : list pyval) (s : pyval) (t_pre t_post : Table) (e : exn)
    (u : pyval) (name type updated : string) (crs : list (list string)) :
  get_services' st = (inr (pre ++ s :: post)%list, st1) ->
  add_service_rows' pre services_table st1 = (inr t_pre, st2) ->
  (exists d, s = PDict d) ->
  is_cron_job s = false ->
  get_deploys' (field s "id" (PStr "")) 1 st2 = (inl e, st3) ->
  is_Exception e = true ->
  cell (field s "name" na) = inr name ->
  cell (field s "type" na) = inr type ->
  format_timestamp lz (field s "updatedAt" PNone) = inr u ->
  cell u = inr updated ->
  add_service_rows' post services_table st3 = (inr t_post, st4) ->
  cron_rows lz (List.filter is_cron_job (pre ++ s :: post)) = inr crs ->
  exists out,
    build' st = (inr out, st4) /\
    rows (main_table out)
    = (rows t_pre ++ failed_row name type updated :: rows t_post)%list /\
    length (rows (main_table out)) = length (pre ++ s :: post)%list.
Proof.
  intros Hs Hpre Hdict Hcron Hd He Hname Htype Hu Hupd Hpost Hcrs.
  apply rows_of_service_rows in Hpre, Hpost.
  pose proof (service_rows_failure _ _ _ _ _ _ _ _
                Hdict Hcron Hd He Hname Htype Hu Hupd) as Hmid.
  assert (Hall : service_rows' (pre ++ s :: post) st1
                 = (inr (rows t_pre ++ failed_row name type updated
                           :: rows t_post)%list, st4)).
  { apply service_rows_app. exists (rows t_pre), (failed_row name type updated :: rows t_post), st2.
    split; [assumption|]. split; [|reflexivity].
    change (s :: post) with ([s] ++ post)%list.
    apply service_rows_app.
    exists [failed_row name type updated], (rows t_post), st3. auto. }
  assert (Hne : (pre ++ s :: post)%list <> []) by (now destruct pre).
  pose proof (build_from_rows _ _ _ _ _ _ Hs Hne Hall Hcrs) as Hb.
  eexists. split; [exact Hb|].
  assert (Hrows : forall A B (a : A) (b : B) (l : list pyval),
             rows (main_table
                     match l with
                     | [] => Single (extend services_table
                                       (rows t_pre ++ failed_row name type updated
                                          :: rows t_post))
                     | _ :: _ =>
                         Both (extend services_table
                                 (rows t_pre ++ failed_row name type updated
                                    :: rows t_post))
                              (extend cron_table_header crs)
                     end)
             = (rows t_pre ++ failed_row name type updated :: rows t_post)%list)
    by (intros A B _ _ [|? ?]; reflexivity).
  rewrite (Hrows unit unit tt tt). split; [reflexivity|].
  apply service_rows_spec in Hall. symmetry. eapply Forall2_length. exact Hall.
Qed.

Lemma is_cron_job_type (s : pyval) :
  is_cron_job s = true -> field s "type" na = PStr "cron_job".
Proof.
  unfold is_cron_job, eq_str. destruct (field s "type" na); try discriminate.
  intros H. apply String.eqb_eq in H. now subst.
Qed.

Lemma web_service_not_cron (s : pyval) :
  eq_str (field s "type" na) "web_service" = true -> is_cron_job s = false.
Proof.
  unfold is_cron_job, eq_str. destruct (field s "type" na); try discriminate.
  intros H. apply String.eqb_eq in H. now subst.
Qed.



End BuilderProps.

(** ** Dates *)

Lemma next_day_valid (x : date) : valid_date x -> valid_date (next_day x).
Proof.
  destruct x as [[y m] d]. intros [Hm Hd].
  date_cases y m; try lia.
Qed.

Lemma prev_day_valid (x : date) : valid_date x -> valid_date (prev_day x).
Proof.
  destruct x as [[y m] d]. intros [Hm Hd].
  date_cases y m; try lia.
Qed.

Lemma prev_next_day (x : date) : valid_date x -> prev_day (next_day x) = x.
Proof.
  destruct x as [[y m] d]. intros [Hm Hd].
  date_cases y m; try lia; repeat (f_equal; try lia).
Qed.

Lemma next_prev_day (x : date) : valid_date x -> next_day (prev_day x) = x.
Proof.
  destruct x as [[y m] d]. intros [Hm Hd].
  date_cases y m; try lia; repeat (f_equal; try lia).
Qed.

Lemma iter_next_valid (k : nat) (x : date) :
  valid_date x -> valid_date (Nat.iter k next_day x).
Proof. induction k; cbn; auto using next_day_valid. Qed.

Lemma iter_prev_valid (k : nat) (x : date) :
  valid_date x -> valid_date (Nat.iter k prev_day x).
Proof. induction k; cbn; auto using prev_day_valid. Qed.

Lemma iter_prev_next (k : nat) (x : date) :
  valid_date x -> Nat.iter k prev_day (Nat.iter k next_day x) = x.
Proof.
  intros Hx. induction k as [|k IH]; [reflexivity|].
  rewrite Nat.iter_succ_r. cbn [Nat.iter nat_rect].
  rewrite prev_next_day by now apply iter_next_valid.
  exact IH.
Qed.

Lemma iter_next_prev (k : nat) (x : date) :
  valid_date x -> Nat.iter k next_day (Nat.iter k prev_day x) = x.
Proof.
  intros Hx. induction k as [|k IH]; [reflexivity|].
  rewrite Nat.iter_succ_r. cbn [Nat.iter nat_rect].
  rewrite next_prev_day by now apply iter_prev_valid.
  exact IH.
Qed.

Lemma shift_days_valid (n : Z) (x : date) :
  valid_date x -> valid_date (shift_days n x).
Proof.
  intros Hx. unfold shift_days.
  destruct (0 <=? n)%Z; auto using iter_next_valid, iter_prev_valid.
Qed.

(** Going [n] days one way and [n] days back. *)
Lemma shift_days_back (n : Z) (x : date) :
  valid_date x -> shift_days (- n) (shift_days n x) = x.
Proof.
  intros Hx. unfold shift_days.
  destruct (Z.leb_spec 0 n) as [Hn|Hn].
  - destruct (Z.leb_spec 0 (- n)) as [Hn'|Hn'].
    + replace n with 0%Z by lia. reflexivity.
    + rewrite Z.opp_involutive. now apply iter_prev_next.
  - destruct (Z.leb_spec 0 (- n)) as [Hn'|Hn']; [|lia].
    now apply iter_next_prev.
Qed.

(** ** Parsed timestamps *)

Lemma fields_ok_well_formed (y m d h mi sec us : Z) (off : option Z) :
  fields_ok y m d h mi sec us off = true ->
  well_formed (Datetime y m d h mi sec us (fixed_zone <$> off)).
Proof.
  unfold fields_ok, well_formed, valid_date, date_of, time_us,
    us_per_day, us_per_second.
  cbn [year month day hour minute second microsecond tz].
  rewrite !andb_true_iff, !Z.leb_le, Z.ltb_lt.
  intros (H & Hoff).
  split; [lia|]. split; [lia|]. split; [lia|].
  intros z Hz. destruct off as [o|]; [|discriminate Hz].
  injection Hz as <-. cbn [utcoffset fixed_zone].
  rewrite andb_true_iff, !Z.ltb_lt in Hoff. lia.
Qed.

Lemma parse_isoformat_well_formed (s : string) (dt : datetime) :
  parse_isoformat s = Some dt -> well_formed dt.
Proof.
  unfold parse_isoformat.
  destruct (parse_fields s) as [[[[[[[[y m] d] h] mi] sec] us] off]|];
    [|discriminate].
  cbn [mbind option_bind].
  destruct (fields_ok y m d h mi sec us off) eqn:Hok; [|discriminate].
  intros [= <-]. eapply fields_ok_well_formed. exact Hok.
Qed.

Lemma fromisoformat_well_formed (s : string) (dt : datetime) :
  fromisoformat s = inr dt -> well_formed dt.
Proof.
  unfold fromisoformat. destruct (parse_isoformat s) eqn:H; [|discriminate].
  intros [= <-]. now apply parse_isoformat_well_formed in H.
Qed.

Lemma fromisoformat_nonempty (s : string) (dt : datetime) :
  fromisoformat (str_replace_char "Z" "+00:00" s) = inr dt -> s <> "".
Proof. intros H ->. discriminate H. Qed.

Lemma add_us_inv (dt r : datetime) (delta : Z) (z : option tzinfo) :
  add_us dt delta z = inr r ->
  date_of r = shift_days ((time_us dt + delta) / us_per_day) (date_of dt) /\
  time_us r = (time_us dt + delta) mod us_per_day /\
  tz r = z.
Proof.
  unfold add_us.
  destruct (shift_days _ (date_of dt)) as [[y m] d].
  destruct (_ && _); [|discriminate]. intros [= <-].
  split; [reflexivity|]. split; [|reflexivity].
  unfold time_us. cbn [hour minute second microsecond].
  generalize ((time_us dt + delta) mod us_per_day).
  unfold us_per_day, us_per_second. intros t.
  Z.div_mod_to_equations. lia.
Qed.

(** When the local offset is the offset the timestamp is read with,
    [astimezone] keeps the date and the time of day. *)
Lemma astimezone_same_offset (lz : localzone) (dt local : datetime) (z : tzinfo) :
  well_formed dt ->
  astimezone lz dt = inr local ->
  tz local = Some z ->
  utcoffset z = utcoffset (self_zone lz dt) ->
  date_of local = date_of dt /\ time_us local = time_us dt.
Proof.
  intros (_ & Hdate & Htime & _) Hast Hz Hoff. unfold astimezone in Hast.
  destruct (add_us dt _ (Some utc)) as [e|u] eqn:Hu; [discriminate|].
  apply add_us_inv in Hu as (Hdu & Htu & _).
  apply add_us_inv in Hast as (Hdl & Htl & Hzl).
  rewrite Hz in Hzl. injection Hzl as Hzl. subst z.
  rewrite Hoff in Hdl, Htl. rewrite Htu in Hdl, Htl.
  set (o := utcoffset (self_zone lz dt)) in *.
  set (t := time_us dt) in *.
  assert (Hc : ((t + - o) mod us_per_day + o) / us_per_day
               = - ((t + - o) / us_per_day)).
  { unfold us_per_day, us_per_second in *. Z.div_mod_to_equations. lia. }
  assert (Hr : ((t + - o) mod us_per_day + o) mod us_per_day = t).
  { unfold us_per_day, us_per_second in *. Z.div_mod_to_equations. lia. }
  rewrite Hc in Hdl. rewrite Hr in Htl. split; [|exact Htl].
  rewrite Hdl, Hdu. now apply shift_days_back.
Qed.

Lemma astimezone_zone (lz : localzone) (dt local : datetime) :
  astimezone lz dt = inr local -> exists z, tz local = Some z.
Proof.
  unfold astimezone.
  destruct (add_us dt _ (Some utc)) as [e|u]; [discriminate|].
  intros H. apply add_us_inv in H as (_ & _ & H). eauto.
Qed.

(** ** [strftime] and [format_timestamp] *)

Lemma strftime_literal (dt : datetime) (s : string) :
  has_percent s = false -> strftime dt s = s.
Proof.
  unfold has_percent. induction s as [|c s IH]; [reflexivity|].
  cbn [list_ascii_of_string existsb strftime].
  rewrite orb_false_iff, Ascii.eqb_sym. intros [-> H].
  now rewrite IH.
Qed.

Lemma strftime_format (dt : datetime) (name : string) :
  strftime dt ("%Y-%m-%d %H:%M:%S " +:+ name)
  = iso_date dt +:+ " " +:+ clock dt +:+ " " +:+ strftime dt name.
Proof. reflexivity. Qed.

Lemma append_empty (s : string) : s +:+ "" = s.
Proof.
  induction s as [|c s IH]; [reflexivity|].
  change (String c (s +:+ "") = String c s). now rewrite IH.
Qed.

Lemma strftime_Z (dt : datetime) (z : tzinfo) :
  tz dt = Some z -> strftime dt "%Z" = tzname z.
Proof.
  intros H. cbn [strftime]. cbn [Ascii.eqb Bool.eqb]. unfold directive.
  cbn [Ascii.eqb Bool.eqb]. rewrite H. cbn [from_option]. apply append_empty.
Qed.

Lemma format_timestamp_str (lz : localzone) (s : string) :
  s <> "" ->
  format_timestamp lz (PStr s) =
  match fromisoformat (str_replace_char "Z" "+00:00" s) with
  | inl _ => inr (PStr s)
  | inr dt =>
      match astimezone lz dt with
      | inl e => inl e
      | inr local_dt =>
          inr (PStr (strftime local_dt
                       ("%Y-%m-%d %H:%M:%S " +:+ strftime local_dt "%Z")))
      end
  end.
Proof.
  intros Hs. unfold format_timestamp, format_timestamp_try. cbn [truthy replace_Z].
  destruct (String.eqb_spec s "") as [->|_]; [now elim Hs|]. cbn [negb].
  unfold fromisoformat.
  destruct (parse_isoformat _) as [dt|]; [|reflexivity].
  unfold astimezone.
  destruct (add_us dt _ (Some utc)) as [e|u] eqn:Hu.
  - unfold add_us in Hu. destruct (shift_days _ _) as [[y m] d].
    destruct (_ && _); [discriminate|]. injection Hu as <-. reflexivity.
  - destruct (add_us u _ _) as [e|l] eqn:Hl; [|reflexivity].
    unfold add_us in Hl. destruct (shift_days _ _) as [[y m] d].
    destruct (_ && _); [discriminate|]. injection Hl as <-. reflexivity.
Qed.

(** ** Years that cannot overflow *)

Lemma next_day_year (x : date) :
  valid_date x ->
  (next_day x).1.1 = x.1.1 \/ next_day x = (x.1.1 + 1, 1, 1).
Proof.
  destruct x as [[y m] d]. intros [Hm Hd].
  date_cases y m; auto.
Qed.

Lemma prev_day_year (x : date) :
  valid_date x ->
  (prev_day x).1.1 = x.1.1 \/ prev_day x = (x.1.1 - 1, 12, 31).
Proof.
  destruct x as [[y m] d]. intros [Hm Hd].
  date_cases y m; auto.
Qed.

Lemma shift_days_cases (c : Z) (x : date) :
  -1 <= c <= 1 ->
  shift_days c x = x \/ shift_days c x = next_day x \/ shift_days c x = prev_day x.
Proof.
  intros Hc. assert (H : c = -1 \/ c = 0 \/ c = 1) by lia.
  destruct H as [->|[->| ->]]; cbn; auto.
Qed.

Lemma shift_days_one (c : Z) (x : date) :
  valid_date x -> -1 <= c <= 1 ->
  valid_date (shift_days c x) /\
  ((shift_days c x).1.1 = x.1.1 \/
   shift_days c x = (x.1.1 + 1, 1, 1) \/
   shift_days c x = (x.1.1 - 1, 12, 31)).
Proof.
  intros Hx Hc. split; [now apply shift_days_valid|].
  destruct (shift_days_cases c x Hc) as [->|[-> | ->]]; [now left| |].
  - destruct (next_day_year _ Hx); auto.
  - destruct (prev_day_year _ Hx); auto.
Qed.

(** Two shifts of at most a day each move the year by at most one. *)
Lemma shift_days_twice_year (a b : Z) (x : date) :
  valid_date x -> -1 <= a <= 1 -> -1 <= b <= 1 ->
  x.1.1 - 1 <= (shift_days a x).1.1 <= x.1.1 + 1 /\
  x.1.1 - 1 <= (shift_days b (shift_days a x)).1.1 <= x.1.1 + 1.
Proof.
  intros Hx Ha Hb.
  destruct (shift_days_one a x Hx Ha) as [Hv [H|[H|H]]].
  - split; [lia|].
    destruct (shift_days_one b _ Hv Hb) as [_ [H'|[H'|H']]];
      rewrite ?H'; cbn [fst snd]; lia.
  - rewrite H. cbn [fst snd]. split; [lia|].
    destruct (shift_days_cases b (x.1.1 + 1, 1, 1) Hb) as [->|[-> | ->]];
      cbn; lia.
  - rewrite H. cbn [fst snd]. split; [lia|].
    destruct (shift_days_cases b (x.1.1 - 1, 12, 31) Hb) as [->|[-> | ->]];
      cbn; lia.
Qed.

Lemma add_us_ok (dt : datetime) (delta : Z) (z : option tzinfo) :
  MINYEAR <= (shift_days ((time_us dt + delta) / us_per_day) (date_of dt)).1.1
          <= MAXYEAR ->
  exists r, add_us dt delta z = inr r.
Proof.
  unfold add_us. destruct (shift_days _ _) as [[y m] d]. cbn [fst snd].
  intros [H1 H2]. apply Z.leb_le in H1, H2. rewrite H1, H2. eauto.
Qed.

(** For the years 2 to 9998 the conversion cannot leave the calendar. *)
Lemma astimezone_in_range (lz : localzone) (dt : datetime) :
  well_formed dt -> bounded_zone lz -> 2 <= year dt <= 9998 ->
  exists local, astimezone lz dt = inr local.
Proof.
  intros (_ & Hdate & Htime & Hoff) Hlz Hyear. unfold astimezone.
  assert (Ho : - us_per_day < utcoffset (self_zone lz dt) < us_per_day).
  { unfold self_zone. destruct (tz dt) as [z|]; [now apply Hoff|apply Hlz]. }
  set (o := utcoffset (self_zone lz dt)) in *.
  assert (Hc1 : -1 <= (time_us dt + - o) / us_per_day <= 1).
  { unfold us_per_day, us_per_second in *. Z.div_mod_to_equations. lia. }
  destruct (add_us dt (- o) (Some utc)) as [e|u] eqn:Hu.
  { destruct (add_us_ok dt (- o) (Some utc)) as [r Hr]; [|congruence].
    destruct (shift_days_twice_year _ 0 _ Hdate Hc1) as [H _]; [lia|].
    unfold MINYEAR, MAXYEAR. cbn [date_of fst snd] in H. lia. }
  apply add_us_inv in Hu as (Hdu & Htu & _).
  set (o' := utcoffset (local_timezone lz u)).
  assert (Ho' : - us_per_day < o' < us_per_day) by apply Hlz.
  assert (Hc2 : -1 <= (time_us u + o') / us_per_day <= 1).
  { rewrite Htu. unfold us_per_day, us_per_second in *.
    Z.div_mod_to_equations. lia. }
  apply add_us_ok. rewrite Hdu.
  destruct (shift_days_twice_year _ _ _ Hdate Hc1 Hc2) as [_ H].
  unfold MINYEAR, MAXYEAR. cbn [date_of fst snd] in H. lia.
Qed.

(** ** The statements about [format_timestamp] *)



Example format_valid :
  format_timestamp Sample.utc_zone (PStr "2025-11-25T12:34:56Z")
  = inr (PStr "2025-11-25 12:34:56 UTC").
Proof. vm_compute. reflexivity. Qed.

Example format_invalid :
  format_timestamp Sample.utc_zone (PStr "invalid") = inr (PStr "invalid").
Proof. vm_compute. reflexivity. Qed.

Example format_next_day_in_cet :
  format_timestamp Sample.cet_zone (PStr "2024-02-29T23:30:00Z")
  = inr (PStr "2024-03-01 00:30:00 CET").
Proof. vm_compute. reflexivity. Qed.


(** C6: [None] gives ["N/A"], a string that [fromisoformat] rejects and
    a true value that is no string come back as they are, but a
    timestamp at the edge of the calendar raises: in the first hours of
    the year 1 at five hours ahead of UTC, the conversion to UTC leaves
    the calendar and the [OverflowError] is not among the exceptions
    the function catches. *)
Theorem format_timestamp_overflow (lz : localzone) :
  format_timestamp lz PNone = inr (PStr "N/A") /\
  (forall s e, s <> "" ->
     fromisoformat (str_replace_char "Z" "+00:00" s) = inl e ->
     format_timestamp lz (PStr s) = inr (PStr s)) /\
  (forall ts, truthy ts = true -> (forall s, ts <> PStr s) ->
     format_timestamp lz ts = inr ts) /\
  fromisoformat "0001-01-01T00:00:00+05:00"
  = inr (Datetime 1 1 1 0 0 0 0 (Some (fixed_zone 18000000000))) /\
  format_timestamp lz (PStr "0001-01-01T00:00:00+05:00")
  = inl (Exn OverflowError "date value out of range").
Proof.
  split; [reflexivity|]. split.
  { intros s e Hs He. rewrite format_timestamp_str by assumption.
    now rewrite He. }
  split.
  { intros ts Ht Hstr. unfold format_timestamp, format_timestamp_try.
    rewrite Ht. cbn [negb].
    destruct ts as [| | |s| |]; try reflexivity. now elim (Hstr s). }
  split; [vm_compute; reflexivity|].
  rewrite format_timestamp_str by discriminate.
  reflexivity.
Qed.

(** ** The statements on the sample data *)

Lemma get_jobs_both_shapes_witness :
  get_jobs unit (Sample.transport (Sample.listing [])) (PStr "srv-2") Sample.start
  = (inr (PList [Sample.job]),
     State unit tt (sent unit Sample.start ++ [GetJobs (PStr "srv-2")])%list)
  /\ forall first rest,
       jobs_of (PList (first :: rest)) =
       if is_dict_with first "job"
       then l ← unwrap "job" (PList (first :: rest)); mret (PList l)
       else inr (PList (first :: rest)).
Proof.
  apply (get_jobs_both_shapes (Sample.transport (Sample.listing []))
           (PStr "srv-2") Sample.start
           (Response None (inr (PList [Sample.job]))) tt [Sample.job]).
  - reflexivity.
  - reflexivity.
  - intros j [= <-]. vm_compute. reflexivity.
  - right. reflexivity.
Defined.

Example get_jobs_wrapped :
  jobs_of (PList [envelope "job" Sample.job]) = inr (PList [Sample.job]).
Proof. vm_compute. reflexivity. Qed.

Example get_jobs_mixed :
  jobs_of (PList [envelope "job" Sample.job; Sample.job])
  = inl (Exn KeyError "'job'").
Proof. vm_compute. reflexivity. Qed.

Lemma listing_failure_gives_error_table_witness :
  exists t,
    build_services_output unit (Sample.transport (inl Sample.api_error))
      Sample.utc_zone Sample.start
    = (inr (Single t), Sample.listed) /\
    show_header t = false /\
    rows t = [error_row Sample.api_error].
Proof.
  apply (listing_failure_gives_error_table
           (Sample.transport (inl Sample.api_error)) Sample.utc_zone
           Sample.start Sample.listed Sample.api_error); reflexivity.
Defined.

Lemma no_services_gives_placeholder_witness :
  exists t,
    build_services_output unit (Sample.transport (Sample.listing []))
      Sample.utc_zone Sample.start
    = (inr (Single t), Sample.listed) /\
    show_header t = false /\
    rows t = [no_services_row].
Proof.
  apply (no_services_gives_placeholder
           (Sample.transport (Sample.listing [])) Sample.utc_zone
           Sample.start Sample.listed); reflexivity.
Defined.

Lemma main_table_has_every_service_witness :
  let services := [Sample.web; Sample.cron] in
  let out := Sample.both_tables [Sample.web_row; Sample.cron_main_row]
               [Sample.cron_row] in
  Forall2 main_row_of services (rows (main_table out)) /\
  length (rows (main_table out)) = length services /\
  Forall2 cron_row_of (List.filter is_cron_job services)
          (from_option rows [] (cron_table_of out)) /\
  (cron_table_of out = None <-> List.filter is_cron_job services = []).
Proof.
  apply (main_table_has_every_service
           (Sample.transport (Sample.listing [Sample.web; Sample.cron]))
           Sample.utc_zone Sample.start Sample.listed Sample.asked_1
           [Sample.web; Sample.cron]
           (Sample.both_tables [Sample.web_row; Sample.cron_main_row]
              [Sample.cron_row])).
  - vm_compute. reflexivity.
  - discriminate.
  - vm_compute. reflexivity.
Defined.



Lemma deploy_failure_is_inline_witness :
  exists out,
    build_services_output unit
      (Sample.transport
         (Sample.listing [Sample.web; Sample.worker; Sample.cron]))
      Sample.utc_zone Sample.start
    = (inr out, Sample.asked_1_3) /\
    rows (main_table out)
    = (rows (extend services_table [Sample.web_row])
         ++ failed_row "service-3" "background_worker" "2025-11-24 08:30:00 UTC"
         :: rows (extend services_table [Sample.cron_main_row]))%list /\
    length (rows (main_table out))
    = length ([Sample.web] ++ Sample.worker :: [Sample.cron])%list.
Proof.
  apply (deploy_failure_is_inline
           (Sample.transport
              (Sample.listing [Sample.web; Sample.worker; Sample.cron]))
           Sample.utc_zone
           Sample.start Sample.listed Sample.asked_1 Sample.asked_1_3
           Sample.asked_1_3
           [Sample.web] [Sample.cron] Sample.worker
           (extend services_table [Sample.web_row])
           (extend services_table [Sample.cron_main_row])
           (Exn HTTPError "503 Service Unavailable")
           (PStr "2025-11-24 08:30:00 UTC")
           "service-3" "background_worker" "2025-11-24 08:30:00 UTC"
           [Sample.cron_row]).
  - vm_compute. reflexivity.
  - vm_compute. reflexivity.
  - eexists. reflexivity.
  - vm_compute. reflexivity.
  - vm_compute. reflexivity.
  - reflexivity.
  - vm_compute. reflexivity.
  - vm_compute. reflexivity.
  - vm_compute. reflexivity.
  - reflexivity.
  - vm_compute. reflexivity.
  - vm_compute. reflexivity.
Defined.

Example deploy_failure_run :
  build_services_output unit
    (Sample.transport (Sample.listing [Sample.web; Sample.worker; Sample.cron]))
    Sample.utc_zone Sample.start
  = (inr (Sample.both_tables
            [Sample.web_row; Sample.worker_row; Sample.cron_main_row]
            [Sample.cron_row]),
     Sample.asked_1_3).
Proof. vm_compute. reflexivity. Qed.

(** * Further properties *)

(** ** The client: envelopes, failures, malformed bodies *)

Section ClientMore.

Context {World : Type}.
Variable http_get : request -> World -> result response * World.

Local Abbreviation St := (state World).
Local Abbreviation after st w r := (State World w (sent World st ++ [r])%list).
Local Abbreviation request_fails := (request_fails World http_get).

Lemma fetch_transport_error (r : request) (st : St) (e : exn) (w' : World) :
  http_get r (world _ st) = (inl e, w') ->
  fetch World http_get r st = (inl e, after st w' r).
Proof.
  intros H. unfold fetch, mbind, M_bind, client_get. now rewrite H.
Qed.

Lemma fetch_status_error (r : request) (st : St) (resp : response) (e : exn)
    (w' : World) :
  http_get r (world _ st) = (inr resp, w') ->
  raise_for_status resp = Some e ->
  fetch World http_get r st = (inl e, after st w' r).
Proof.
  intros H Hs. unfold fetch, mbind, M_bind, client_get. now rewrite H, Hs.
Qed.

Lemma fetch_json_error (r : request) (st : St) (resp : response) (e : exn)
    (w' : World) :
  http_get r (world _ st) = (inr resp, w') ->
  raise_for_status resp = None ->
  json resp = inl e ->
  fetch World http_get r st = (inl e, after st w' r).
Proof.
  intros H Hs Hj. unfold fetch, mbind, M_bind, client_get, lift.
  now rewrite H, Hs, Hj.
Qed.

Lemma fetch_fails (r : request) (st : St) (e : exn) (w' : World) :
  request_fails r st e w' ->
  fetch World http_get r st = (inl e, after st w' r).
Proof.
  intros [H|(resp & H & [Hs|[Hs Hj]])];
    eauto using fetch_transport_error, fetch_status_error, fetch_json_error.
Qed.

(** X1: when the listing succeeds with the body
    [[{"service": s} for s in services]], [get_services] returns
    [services], in order, after exactly one request. *)
Theorem get_services_unwraps (st : St) (resp : response) (w' : World)
    (services : list pyval) :
  http_get GetServices (world _ st) = (inr resp, w') ->
  raise_for_status resp = None ->
  json resp = inr (PList (envelope "service" <$> services)) ->
  get_services World http_get st = (inr services, after st w' GetServices).
Proof.
  intros H Hs Hj. unfold get_services, mbind, M_bind.
  rewrite (fetch_ok _ _ _ _ _ _ H Hs Hj). unfold lift.
  now rewrite unwrap_envelope.
Qed.

(** X2: [get_deploys] sends one request that carries the service id and
    the limit it was called with, and for the body
    [[{"deploy": d} for d in deploys]] returns [deploys], in order. *)
Theorem get_deploys_unwraps (service_id : pyval) (limit : Z) (st : St)
    (resp : response) (w' : World) (deploys : list pyval) :
  http_get (GetDeploys service_id limit) (world _ st) = (inr resp, w') ->
  raise_for_status resp = None ->
  json resp = inr (PList (envelope "deploy" <$> deploys)) ->
  get_deploys World http_get service_id limit st
  = (inr deploys, after st w' (GetDeploys service_id limit)).
Proof.
  intros H Hs Hj. unfold get_deploys, mbind, M_bind.
  rewrite (fetch_ok _ _ _ _ _ _ H Hs Hj). unfold lift.
  now rewrite unwrap_envelope.
Qed.

(** X3: a failure of the request itself (the transport raises, the
    status check raises, the body is no JSON) comes out of each of the
    three methods as the same exception, after that one request. *)
Theorem client_errors_pass_through (st : St) (e : exn) (w' : World) :
  (request_fails GetServices st e w' ->
   get_services World http_get st = (inl e, after st w' GetServices)) /\
  (forall service_id limit,
     request_fails (GetDeploys service_id limit) st e w' ->
     get_deploys World http_get service_id limit st
     = (inl e, after st w' (GetDeploys service_id limit))) /\
  (forall service_id,
     request_fails (GetJobs service_id) st e w' ->
     get_jobs World http_get service_id st
     = (inl e, after st w' (GetJobs service_id))).
Proof.
  repeat split; intros; unfold get_services, get_deploys, get_jobs, mbind, M_bind;
    now rewrite (fetch_fails _ _ _ _ ltac:(eassumption)).
Qed.

Lemma mapM_getitem_missing (k : string) (pre post : list pyval)
    (d : gmap string pyval) :
  d !! k = None ->
  mapM (fun item => getitem item k) ((envelope k <$> pre) ++ PDict d :: post)
  = inl (Exn KeyError ("'" +:+ k +:+ "'")).
Proof.
  intros Hd. induction pre as [|x pre IH].
  - cbn [fmap list_fmap app mapM getitem]. now rewrite Hd.
  - rewrite fmap_cons, <- app_comm_cons. cbn [mapM].
    rewrite getitem_envelope. cbn [mbind result_bind].
    cbn [mapM] in IH. now rewrite IH.
Qed.

(** X4: a listing in which some element is an object without the key
    ["service"] makes [get_services] raise [KeyError], whatever the
    other elements are worth; nothing of the listing is returned. *)
Theorem get_services_missing_key (st : St) (resp : response) (w' : World)
    (pre post : list pyval) (d : gmap string pyval) :
  http_get GetServices (world _ st) = (inr resp, w') ->
  raise_for_status resp = None ->
  json resp = inr (PList ((envelope "service" <$> pre) ++ PDict d :: post)) ->
  d !! "service" = None ->
  get_services World http_get st
  = (inl (Exn KeyError "'service'"), after st w' GetServices).
Proof.
  intros H Hs Hj Hd. unfold get_services, mbind, M_bind.
  rewrite (fetch_ok _ _ _ _ _ _ H Hs Hj). unfold lift, unwrap.
  cbn [iter mbind result_bind]. now rewrite mapM_getitem_missing.
Qed.

(** X5: [get_jobs] decides by the first element only: when the first
    element is wrapped and a later one is an object without the key
    ["job"], it raises [KeyError] instead of returning a list. *)
Theorem get_jobs_mixed_raises (service_id : pyval) (st : St) (resp : response)
    (w' : World) (j : pyval) (pre post : list pyval) (d : gmap string pyval) :
  http_get (GetJobs service_id) (world _ st) = (inr resp, w') ->
  raise_for_status resp = None ->
  json resp
  = inr (PList (envelope "job" j
                  :: (envelope "job" <$> pre) ++ PDict d :: post)) ->
  d !! "job" = None ->
  get_jobs World http_get service_id st
  = (inl (Exn KeyError "'job'"), after st w' (GetJobs service_id)).
Proof.
  intros H Hs Hj Hd. unfold get_jobs, mbind, M_bind.
  rewrite (fetch_ok _ _ _ _ _ _ H Hs Hj). unfold lift.
  rewrite jobs_of_first, is_dict_with_envelope. unfold unwrap.
  cbn [iter mbind result_bind].
  change (envelope "job" j :: (envelope "job" <$> pre) ++ PDict d :: post)%list
    with ((envelope "job" <$> j :: pre) ++ PDict d :: post)%list.
  now rewrite mapM_getitem_missing.
Qed.

(** X6: when the body of the jobs response is [null], a boolean or a
    number, [get_jobs] raises [TypeError]: the body is subscripted or
    measured before it is known to be a list. *)
Theorem get_jobs_scalar_body (service_id : pyval) (st : St) (resp : response)
    (w' : World) (data : pyval) :
  http_get (GetJobs service_id) (world _ st) = (inr resp, w') ->
  raise_for_status resp = None ->
  json resp = inr data ->
  is_scalar data = true ->
  exists msg,
    get_jobs World http_get service_id st
    = (inl (Exn TypeError msg), after st w' (GetJobs service_id)).
Proof.
  intros H Hs Hj Hd. unfold get_jobs, mbind, M_bind.
  rewrite (fetch_ok _ _ _ _ _ _ H Hs Hj). unfold lift, jobs_of.
  destruct data as [|b|z| | |]; try discriminate Hd.
  - eexists. reflexivity.
  - destruct b; eexists; reflexivity.
  - cbn [truthy]. destruct (Z.eqb z 0); eexists; reflexivity.
Qed.

End ClientMore.

Lemma get_services_unwraps_witness :
  get_services unit (canned (PList (envelope "service" <$> [Sample.web; Sample.cron])))
    Sample.start
  = (inr [Sample.web; Sample.cron], Sample.listed).
Proof.
  apply (get_services_unwraps
           (canned (PList (envelope "service" <$> [Sample.web; Sample.cron])))
           Sample.start
           (Response None
              (inr (PList (envelope "service" <$> [Sample.web; Sample.cron]))))
           tt [Sample.web; Sample.cron]); reflexivity.
Defined.

Lemma get_deploys_unwraps_witness :
  get_deploys unit (canned (PList (envelope "deploy" <$> [Sample.deploy])))
    (PStr "srv-1") 5 Sample.start
  = (inr [Sample.deploy], State unit tt [GetDeploys (PStr "srv-1") 5]).
Proof.
  apply (get_deploys_unwraps
           (canned (PList (envelope "deploy" <$> [Sample.deploy])))
           (PStr "srv-1") 5 Sample.start
           (Response None (inr (PList (envelope "deploy" <$> [Sample.deploy]))))
           tt [Sample.deploy]); reflexivity.
Defined.

Lemma get_services_missing_key_witness :
  get_services unit
    (canned (PList ((envelope "service" <$> [Sample.web])
                      ++ PDict {[ "deploy" := Sample.deploy ]} :: [])))
    Sample.start
  = (inl (Exn KeyError "'service'"), Sample.listed).
Proof.
  apply (get_services_missing_key
           (canned (PList ((envelope "service" <$> [Sample.web])
                             ++ PDict {[ "deploy" := Sample.deploy ]} :: [])))
           Sample.start
           (Response None
              (inr (PList ((envelope "service" <$> [Sample.web])
                             ++ PDict {[ "deploy" := Sample.deploy ]} :: []))))
           tt [Sample.web] [] {[ "deploy" := Sample.deploy ]});
    reflexivity.
Defined.

Lemma get_jobs_mixed_raises_witness :
  get_jobs unit
    (canned (PList (envelope "job" Sample.job
                      :: (envelope "job" <$> []) ++ PDict ∅ :: [Sample.job])))
    (PStr "srv-2") Sample.start
  = (inl (Exn KeyError "'job'"), State unit tt [GetJobs (PStr "srv-2")]).
Proof.
  apply (get_jobs_mixed_raises
           (canned (PList (envelope "job" Sample.job
                             :: (envelope "job" <$> []) ++ PDict ∅
                             :: [Sample.job])))
           (PStr "srv-2") Sample.start
           (Response None
              (inr (PList (envelope "job" Sample.job
                             :: (envelope "job" <$> []) ++ PDict ∅
                             :: [Sample.job]))))
           tt Sample.job [] [Sample.job] ∅); reflexivity.
Defined.

Lemma get_jobs_scalar_body_witness :
  exists msg,
    get_jobs unit (canned PNone) (PStr "srv-2") Sample.start
    = (inl (Exn TypeError msg), State unit tt [GetJobs (PStr "srv-2")]).
Proof.
  apply (get_jobs_scalar_body (canned PNone) (PStr "srv-2") Sample.start
           (Response None (inr PNone)) tt PNone); reflexivity.
Defined.

(** ** The table builder: requests, aborts, cells *)

Section BuilderMore.

Context {World : Type}.
Variable http_get : request -> World -> result response * World.
Variable lz : localzone.

Local Abbreviation St := (state World).
Local Abbreviation get_services' := (get_services World http_get).
Local Abbreviation get_deploys' := (get_deploys World http_get).
Local Abbreviation latest_deploy' := (latest_deploy World http_get lz).
Local Abbreviation service_cells' := (service_cells World http_get lz).
Local Abbreviation add_service_rows' := (add_service_rows World http_get lz).
Local Abbreviation service_rows' := (service_rows World http_get lz).
Local Abbreviation build' := (build_services_output World http_get lz).
Local Abbreviation deploy_part' := (deploy_part World http_get lz).

(** *** One turn of the first loop *)

Lemma service_cells_deploy_part (d : gmap string pyval) (st : St) :
  service_cells' (PDict d) st =
  let s := PDict d in
  match deploy_part' s st with
  | (inl e, st') => (inl e, st')
  | (inr (ls, ld), st') =>
      match format_timestamp lz (field s "updatedAt" PNone) with
      | inl e => (inl e, st')
      | inr u => (inr [field s "name" na; field s "type" na; ls; ld; u], st')
      end
  end.
Proof. apply service_cells_dict. Qed.

Lemma get_deploys_sent (service_id : pyval) (limit : Z) (st : St) :
  sent _ (get_deploys' service_id limit st).2
  = (sent _ st ++ [GetDeploys service_id limit])%list.
Proof.
  unfold get_deploys, mbind, M_bind.
  pose proof (fetch_sent http_get (GetDeploys service_id limit) st) as H.
  destruct (fetch _ _ _ st) as [[e|data] st1]; exact H.
Qed.

Lemma deploy_part_sent (s : pyval) (st : St) :
  sent _ (deploy_part' s st).2
  = (sent _ st ++ if is_cron_job s then []
                  else [GetDeploys (field s "id" (PStr "")) 1])%list.
Proof.
  unfold deploy_part. destruct (is_cron_job s); cbn [negb].
  { cbn. now rewrite app_nil_r. }
  unfold try_except, latest_deploy, mbind, M_bind.
  pose proof (get_deploys_sent (field s "id" (PStr "")) 1 st) as H.
  destruct (get_deploys' _ 1 st) as [[e|[|latest deploys]] st1]; cbn [snd] in H.
  - destruct (is_Exception e); exact H.
  - exact H.
  - unfold lift.
    match goal with
    | |- context [result_bind ?A ?B ?f ?m] =>
        destruct (result_bind A B f m) as [e|x]
    end; [destruct (is_Exception e)|]; exact H.
Qed.

Lemma service_rows_sent (l : list pyval) (st st' : St) (rs : list (list string)) :
  service_rows' l st = (inr rs, st') ->
  sent _ st' = (sent _ st ++ deploy_requests l)%list.
Proof.
  revert st rs. induction l as [|s l IH]; intros st rs H.
  - injection H as <- <-. unfold deploy_requests. cbn. now rewrite app_nil_r.
  - rewrite service_rows_cons in H.
    destruct (service_cells' s st) as [[e|cells] st1] eqn:Hc; [discriminate|].
    destruct (mapM cell cells) as [e|r]; [discriminate|].
    destruct (service_rows' l st1) as [[e|rs'] st2] eqn:Hrs; [discriminate|].
    injection H as <- <-. apply IH in Hrs. rewrite Hrs.
    destruct (service_cells_inv _ _ _ _ _ _ Hc) as (ls & ld & u & _ & [d ->] & _ & _).
    rewrite service_cells_deploy_part in Hc. cbv zeta in Hc.
    pose proof (deploy_part_sent (PDict d) st) as Hp.
    destruct (deploy_part' (PDict d) st) as [[e|[ls' ld']] st1'];
      [discriminate|].
    destruct (format_timestamp lz _); [discriminate|].
    injection Hc as _ <-. cbn [snd] in Hp. rewrite Hp.
    unfold deploy_requests. cbn [List.filter].
    destruct (is_cron_job (PDict d)); cbn [negb].
    + now rewrite app_nil_r.
    + rewrite fmap_cons, <- app_assoc. reflexivity.
Qed.

(** X7: a run that returns tables has sent the listing request and then
    one deploys request with limit 1 for each service that is no cron
    job, in the order of the listing, and nothing else. *)
Theorem build_requests_sent (st st1 st' : St) (services : list pyval)
    (out : output) :
  get_services' st = (inr services, st1) ->
  build' st = (inr out, st') ->
  sent _ st' = (sent _ st ++ GetServices :: deploy_requests services)%list.
Proof.
  intros Hs Hb.
  assert (H1 : sent _ st1 = (sent _ st ++ [GetServices])%list).
  { pose proof (fetch_sent http_get GetServices st) as H.
    unfold get_services, mbind, M_bind in Hs.
    destruct (fetch _ _ _ st) as [[e|data] st0]; [discriminate|].
    unfold lift in Hs. destruct (unwrap _ _); [discriminate|].
    injection Hs as _ <-. exact H. }
  destruct services as [|s l].
  - unfold build_services_output in Hb. rewrite Hs in Hb.
    injection Hb as _ <-. now rewrite H1.
  - destruct (build_success http_get lz _ _ _ _ _ Hs ltac:(discriminate) Hb)
      as (rs & crs & Hrs & _ & _).
    apply service_rows_sent in Hrs. rewrite Hrs, H1, <- app_assoc. reflexivity.
Qed.

(** *** Exceptions that leave the first loop *)

Lemma add_service_rows_app (pre l : list pyval) (t : Table) (st st2 : St)
    (rs : list (list string)) :
  shaped 5 t ->
  service_rows' pre st = (inr rs, st2) ->
  add_service_rows' (pre ++ l) t st = add_service_rows' l (extend t rs) st2.
Proof.
  revert t st rs. induction pre as [|s pre IH]; intros t st rs Ht H.
  - injection H as <- <-. now rewrite extend_nil.
  - rewrite <- app_comm_cons, add_service_rows_cons.
    rewrite service_rows_cons in H.
    destruct (service_cells' s st) as [[e|cells] st1] eqn:Hc; [discriminate|].
    apply service_cells_length in Hc.
    rewrite (add_row_shaped 5 t cells Ht Hc).
    destruct (mapM cell cells) as [e|r] eqn:Hr; [discriminate|].
    cbn [mbind result_bind mret result_ret].
    destruct (service_rows' pre st1) as [[e|rs'] st3] eqn:Hrs; [discriminate|].
    injection H as <- <-.
    assert (Hlen : length r = 5%nat)
      by (rewrite (mapM_cell_length _ _ Hr); exact Hc).
    rewrite (IH (extend t [r]) st1 rs') by
      (try apply shaped_extend; try assumption; now constructor).
    now rewrite extend_extend.
Qed.

(** An exception that leaves the turn of one service leaves the whole
    function. *)
Lemma build_aborts (st st1 st2 st3 : St) (pre post : list pyval) (s : pyval)
    (t_pre : Table) (e : exn) :
  get_services' st = (inr (pre ++ s :: post)%list, st1) ->
  add_service_rows' pre services_table st1 = (inr t_pre, st2) ->
  service_cells' s st2 = (inl e, st3) ->
  build' st = (inl e, st3).
Proof.
  intros Hs Hpre Hc.
  rewrite (build_nonempty _ _ _ _ _ Hs) by now destruct pre.
  apply rows_of_service_rows in Hpre.
  rewrite (add_service_rows_app _ _ _ _ _ _ shaped_services_table Hpre).
  rewrite add_service_rows_cons, Hc. reflexivity.
Qed.

(** X8: an exception that is no [Exception] (the user's interrupt),
    raised while the deploys of a service are fetched, is not turned
    into an error cell: the run ends with that exception. *)
Theorem interrupt_leaves_build (st st1 st2 st3 : St) (pre post : list pyval)
    (s : pyval) (t_pre : Table) (e : exn) :
  get_services' st = (inr (pre ++ s :: post)%list, st1) ->
  add_service_rows' pre services_table st1 = (inr t_pre, st2) ->
  (exists d, s = PDict d) ->
  is_cron_job s = false ->
  get_deploys' (field s "id" (PStr "")) 1 st2 = (inl e, st3) ->
  is_Exception e = false ->
  build' st = (inl e, st3).
Proof.
  intros Hs Hpre [d ->] Hcron Hd He.
  eapply build_aborts; try eassumption.
  rewrite service_cells_dict. cbv zeta. rewrite Hcron. cbn [negb].
  unfold try_except, latest_deploy, mbind, M_bind. now rewrite Hd, He.
Qed.

(** X9: the time of the last update is formatted outside the inner
    [try]: when [format_timestamp] raises on the [updatedAt] of a
    service, or when a service is no object, the run ends with that
    exception instead of a table. *)
Theorem bad_service_leaves_build (st st1 st2 st3 : St) (pre post : list pyval)
    (s : pyval) (t_pre : Table) (e : exn) :
  get_services' st = (inr (pre ++ s :: post)%list, st1) ->
  add_service_rows' pre services_table st1 = (inr t_pre, st2) ->
  ((forall d, s <> PDict d) /\ st3 = st2 /\
   e = Exn AttributeError
         ("'" +:+ type_name s +:+ "' object has no attribute 'get'")) \/
  ((exists d, s = PDict d) /\
   (exists cells, deploy_part' s st2 = (inr cells, st3)) /\
   format_timestamp lz (field s "updatedAt" PNone) = inl e) ->
  build' st = (inl e, st3).
Proof.
  intros Hs Hpre H. eapply build_aborts; try eassumption.
  destruct H as [(Hnd & -> & ->)|([d ->] & [[ls ld] Hp] & Hu)].
  - destruct s; try reflexivity. now elim (Hnd d).
  - rewrite service_cells_deploy_part. cbv zeta. now rewrite Hp, Hu.
Qed.

(** *** The cells of a deploy *)

(** X10: for a service that is no cron job, the status cell is the
    status of the first deploy returned, in bold and in the color of
    [get_status_color], and the latest-deploy cell is its formatted
    [createdAt]; later deploys do not matter, and no deploy at all gives
    ["N/A"] twice. *)
Theorem deploy_cells_of_first (s : pyval) (st st' : St) (deploys : list pyval) :
  is_cron_job s = false ->
  get_deploys' (field s "id" (PStr "")) 1 st = (inr deploys, st') ->
  (deploys = [] -> deploy_part' s st = (inr (na, na), st')) /\
  (forall latest rest status time,
     deploys = latest :: rest ->
     (exists d, latest = PDict d) ->
     field latest "status" na = PStr status ->
     format_timestamp lz (field latest "createdAt" PNone) = inr time ->
     deploy_part' s st
     = (inr (PStr ("[bold " +:+ get_status_color status +:+ "]" +:+ status
                   +:+ "[/bold " +:+ get_status_color status +:+ "]"),
             time), st')).
Proof.
  intros Hcron Hd. unfold deploy_part. rewrite Hcron. cbn [negb].
  unfold try_except, latest_deploy, mbind, M_bind. rewrite Hd. split.
  - intros ->. reflexivity.
  - intros latest rest status time -> [d ->] Hst Ht.
    unfold lift. cbn [get field] in *. cbn [result_bind].
    rewrite Hst. cbn [status_markup result_bind]. rewrite Ht. reflexivity.
Qed.

(** X11: whatever goes wrong with the first deploy (it is no object,
    its status is no string, its [createdAt] makes [format_timestamp]
    raise) is shown as the error cell with ["N/A"] as latest deploy. *)
Theorem malformed_deploy_is_inline (s : pyval) (st st' : St)
    (latest : pyval) (rest : list pyval) :
  is_cron_job s = false ->
  get_deploys' (field s "id" (PStr "")) 1 st = (inr (latest :: rest), st') ->
  (forall d, latest <> PDict d) \/
  (forall status, field latest "status" na <> PStr status) \/
  (exists e, format_timestamp lz (field latest "createdAt" PNone) = inl e /\
             is_Exception e = true) ->
  deploy_part' s st = (inr (error_cell, na), st').
Proof.
  intros Hcron Hd H. unfold deploy_part. rewrite Hcron. cbn [negb].
  unfold try_except, latest_deploy, mbind, M_bind. rewrite Hd. unfold lift.
  destruct latest as [| | | | |d];
    try reflexivity.
  destruct H as [H|[H|(e & He & Hex)]]; [now elim (H d)| |].
  - cbn [get field result_bind] in *.
    destruct (default na (d !! "status")) as [| | |status| |];
      try reflexivity.
    now elim (H status).
  - cbn [get field result_bind] in *.
    destruct (default na (d !! "status")) as [| | |status| |];
      try reflexivity.
    cbn [status_markup result_bind]. rewrite He. cbn [result_bind].
    now rewrite Hex.
Qed.

(** *** The cron table *)

Lemma cron_cells_dict (d : gmap string pyval) :
  cron_cells lz (PDict d) =
  let s := PDict d in
  schedule ← get (details_of s) "schedule" na;
  last_run_ts ← get (details_of s) "lastSuccessfulRunAt" PNone;
  last_run ← (if truthy last_run_ts then format_timestamp lz last_run_ts
              else mret na);
  mret [field s "name" na; schedule; last_run;
        if truthy last_run_ts then PStr succeeded_cell else na].
Proof. reflexivity. Qed.

Lemma cron_rows_cells (cs : list pyval) (rs : list (list string)) :
  cron_rows lz cs = inr rs -> Forall2 (cron_row_cells lz) cs rs.
Proof.
  revert rs. induction cs as [|s cs IH]; intros rs H.
  - injection H as <-. constructor.
  - cbn [cron_rows] in H.
    destruct (cron_cells lz s) as [e|cells] eqn:Hc; [discriminate|].
    cbn [mbind result_bind] in H.
    destruct (mapM cell cells) as [e|r] eqn:Hr; [discriminate|].
    cbn [mbind result_bind] in H.
    destruct (cron_rows lz cs) as [e|rs'] eqn:Hrs; [discriminate|].
    cbn [mbind result_bind mret result_ret] in H. injection H as <-.
    constructor; [|now apply IH].
    destruct s as [| | | | |d]; try discriminate Hc.
    rewrite cron_cells_dict in Hc. cbv zeta in Hc.
    destruct (get (details_of (PDict d)) "schedule" na) as [e|schedule] eqn:H1;
      [discriminate|].
    cbn [mbind result_bind] in Hc.
    destruct (get (details_of (PDict d)) "lastSuccessfulRunAt" PNone)
      as [e|ts] eqn:H2; [discriminate|].
    cbn [mbind result_bind] in Hc.
    apply get_inv in H1 as [-> _]. apply get_inv in H2 as [-> _].
    change (field (details_of (PDict d)) "lastSuccessfulRunAt" PNone)
      with (last_run_of (PDict d)) in Hc.
    unfold cron_row_cells, cron_status.
    destruct (truthy (last_run_of (PDict d))).
    + destruct (format_timestamp lz _) as [e|v] eqn:Hv; [discriminate|].
      cbn [mbind result_bind mret result_ret] in Hc. injection Hc as <-.
      apply mapM_cell_cons in Hr as (x1 & r1 & Hx1 & Hr & ->).
      apply mapM_cell_cons in Hr as (x2 & r2 & Hx2 & Hr & ->).
      apply mapM_cell_cons in Hr as (x3 & r3 & Hx3 & Hr & ->).
      apply mapM_cell_cons in Hr as (x4 & r4 & Hx4 & Hr & ->).
      injection Hr as <-. apply cell_PStr in Hx4. subst x4.
      exists x1, x2, x3. eauto 10.
    + cbn [mbind result_bind mret result_ret] in Hc. injection Hc as <-.
      apply mapM_cell_cons in Hr as (x1 & r1 & Hx1 & Hr & ->).
      apply mapM_cell_cons in Hr as (x2 & r2 & Hx2 & Hr & ->).
      apply mapM_cell_cons in Hr as (x3 & r3 & Hx3 & Hr & ->).
      apply mapM_cell_cons in Hr as (x4 & r4 & Hx4 & Hr & ->).
      injection Hr as <-. apply cell_PStr in Hx3, Hx4. subst x3 x4.
      exists x1, x2, "N/A". eauto 10.
Qed.

(** X12: in the cron table of a run, the row of a cron job is its name,
    the [schedule] of its [serviceDetails] (["N/A"] when absent), its
    [lastSuccessfulRunAt] as [format_timestamp] prints it (["N/A"] when
    absent, [None] or empty) and the status. *)
Theorem cron_table_rows (st st1 st' : St) (services : list pyval)
    (out : output) (ct : Table) :
  get_services' st = (inr services, st1) ->
  build' st = (inr out, st') ->
  cron_table_of out = Some ct ->
  Forall2 (cron_row_cells lz) (List.filter is_cron_job services) (rows ct).
Proof.
  intros Hs Hb Hct.
  destruct services as [|s l].
  { unfold build_services_output in Hb. rewrite Hs in Hb.
    injection Hb as <- _. discriminate Hct. }
  destruct (build_success http_get lz _ _ _ _ _ Hs ltac:(discriminate) Hb)
    as (rs & crs & _ & Hcrs & ->).
  apply cron_rows_cells in Hcrs.
  destruct (List.filter is_cron_job (s :: l)) as [|c cs]; [discriminate Hct|].
  injection Hct as <-. exact Hcrs.
Qed.

Lemma cron_rows_app_fail (pre post : list pyval) (c : pyval) (e : exn)
    (rs : list (list string)) :
  cron_rows lz pre = inr rs ->
  cron_cells lz c = inl e ->
  cron_rows lz (pre ++ c :: post) = inl e.
Proof.
  revert rs. induction pre as [|s pre IH]; intros rs Hpre Hc.
  - cbn [app cron_rows]. now rewrite Hc.
  - rewrite <- app_comm_cons. cbn [cron_rows] in *.
    destruct (cron_cells lz s) as [e'|cells]; [discriminate|].
    cbn [mbind result_bind] in *.
    destruct (mapM cell cells) as [e'|r]; [discriminate|].
    cbn [mbind result_bind] in *.
    destruct (cron_rows lz pre) as [e'|rs'] eqn:Hrs; [discriminate|].
    now rewrite (IH rs' eq_refl Hc).
Qed.

(** X13: a cron job whose [serviceDetails] is present but is no object
    ([null], say) makes the run end with [AttributeError], after the
    main table was built: the default [{}] only covers the absent key. *)
Theorem null_details_leave_build (st st1 st' : St) (services pre post : list pyval)
    (t : Table) (c v : pyval) (d : gmap string pyval) (rs : list (list string)) :
  get_services' st = (inr services, st1) ->
  add_service_rows' services services_table st1 = (inr t, st') ->
  List.filter is_cron_job services = (pre ++ c :: post)%list ->
  cron_rows lz pre = inr rs ->
  c = PDict d ->
  d !! "serviceDetails" = Some v ->
  (forall dd, v <> PDict dd) ->
  build' st
  = (inl (Exn AttributeError
            ("'" +:+ type_name v +:+ "' object has no attribute 'get'")), st').
Proof.
  intros Hs Hrows Hf Hpre -> Hv Hnd.
  assert (Hne : services <> []).
  { intros ->. now destruct pre. }
  rewrite (build_nonempty _ _ _ _ _ Hs Hne), Hrows.
  apply rows_of_service_rows in Hrows.
  rewrite (cron_services_of_dicts _ (service_rows_dicts _ _ _ _ _ _ Hrows)), Hf.
  rewrite add_cron_rows_rows by apply shaped_cron_table_header.
  assert (Hc : cron_cells lz (PDict d)
               = inl (Exn AttributeError
                        ("'" +:+ type_name v +:+ "' object has no attribute 'get'"))).
  { rewrite cron_cells_dict. unfold details_of, field. rewrite Hv. cbn [default].
    destruct v; try reflexivity. now elim (Hnd d0). }
  rewrite (cron_rows_app_fail _ _ _ _ _ Hpre Hc).
  destruct (pre ++ PDict d :: post)%list eqn:E; [now destruct pre|reflexivity].
Qed.

(** X14: the tables a run returns keep their layout: the main table is
    titled ["Render Services"] and has the five columns of the empty
    services table, the cron table is titled ["Cron Jobs"] and has its
    four columns, and every row has as many cells as there are
    columns. *)
Theorem tables_keep_their_columns (st st1 st' : St) (services : list pyval)
    (out : output) :
  get_services' st = (inr services, st1) ->
  services <> [] ->
  build' st = (inr out, st') ->
  title (main_table out) = Some "Render Services" /\
  (header <$> columns (main_table out))
  = ["Name"; "Type"; "Status"; "Latest Deploy"; "Updated"] /\
  shaped 5 (main_table out) /\
  forall ct, cron_table_of out = Some ct ->
    title ct = Some "Cron Jobs" /\
    (header <$> columns ct) = ["Name"; "Schedule"; "Last Run"; "Status"] /\
    shaped 4 ct.
Proof.
  intros Hs Hne Hb.
  destruct (build_success http_get lz _ _ _ _ _ Hs Hne Hb)
    as (rs & crs & Hrs & Hcrs & ->).
  apply service_rows_spec in Hrs. apply cron_rows_spec in Hcrs.
  assert (H5 : shaped 5 (extend services_table rs)).
  { apply shaped_extend; [apply shaped_services_table|].
    clear -Hrs. induction Hrs as [|s r l rs' Hr _ IH]; constructor; [|exact IH].
    destruct Hr as (? & ? & ? & ? & ? & -> & _). reflexivity. }
  assert (H4 : shaped 4 (extend cron_table_header crs)).
  { apply shaped_extend; [apply shaped_cron_table_header|].
    clear -Hcrs. induction Hcrs as [|s r l rs' Hr _ IH]; constructor; [|exact IH].
    destruct Hr as (? & ? & ? & -> & _). reflexivity. }
  destruct (List.filter is_cron_job services) as [|c cs];
    cbn [main_table cron_table_of];
    (split; [reflexivity|]; split; [reflexivity|]; split; [exact H5|]);
    intros ct Hct; [discriminate Hct|].
  injection Hct as <-. split; [reflexivity|]. split; [reflexivity|exact H4].
Qed.

End BuilderMore.

Lemma build_requests_sent_witness :
  sent unit Sample.asked_1_3
  = (sent unit Sample.start
       ++ GetServices
       :: deploy_requests [Sample.web; Sample.worker; Sample.cron])%list.
Proof.
  apply (build_requests_sent
           (Sample.transport
              (Sample.listing [Sample.web; Sample.worker; Sample.cron]))
           Sample.utc_zone Sample.start Sample.listed Sample.asked_1_3
           [Sample.web; Sample.worker; Sample.cron]
           (Sample.both_tables
              [Sample.web_row; Sample.worker_row; Sample.cron_main_row]
              [Sample.cron_row])).
  - vm_compute. reflexivity.
  - vm_compute. reflexivity.
Defined.

Lemma interrupt_leaves_build_witness :
  build_services_output unit interrupted Sample.utc_zone Sample.start
  = (inl (Exn KeyboardInterrupt ""), Sample.asked_1).
Proof.
  apply (interrupt_leaves_build interrupted Sample.utc_zone
           Sample.start Sample.listed Sample.listed Sample.asked_1
           [] [] Sample.web services_table (Exn KeyboardInterrupt "")).
  - vm_compute. reflexivity.
  - reflexivity.
  - eexists. reflexivity.
  - vm_compute. reflexivity.
  - vm_compute. reflexivity.
  - reflexivity.
Defined.

Lemma bad_service_leaves_build_witness :
  build_services_output unit (Sample.transport (Sample.listing [ancient]))
    Sample.utc_zone Sample.start
  = (inl (Exn OverflowError "date value out of range"),
     State unit tt [GetServices; GetDeploys (PStr "srv-9") 1]).
Proof.
  apply (bad_service_leaves_build
           (Sample.transport (Sample.listing [ancient])) Sample.utc_zone
           Sample.start Sample.listed Sample.listed
           (State unit tt [GetServices; GetDeploys (PStr "srv-9") 1])
           [] [] ancient services_table
           (Exn OverflowError "date value out of range")).
  - vm_compute. reflexivity.
  - reflexivity.
  - right. split; [eexists; reflexivity|]. split.
    + eexists. vm_compute. reflexivity.
    + vm_compute. reflexivity.
Defined.

Lemma deploy_cells_of_first_witness :
  ([Sample.deploy] = [] ->
   deploy_part unit (Sample.transport (Sample.listing [Sample.web]))
     Sample.utc_zone Sample.web Sample.listed
   = (inr (na, na), Sample.asked_1)) /\
  (forall latest rest status time,
     [Sample.deploy] = latest :: rest ->
     (exists d, latest = PDict d) ->
     field latest "status" na = PStr status ->
     format_timestamp Sample.utc_zone (field latest "createdAt" PNone)
     = inr time ->
     deploy_part unit (Sample.transport (Sample.listing [Sample.web]))
       Sample.utc_zone Sample.web Sample.listed
     = (inr (PStr ("[bold " +:+ get_status_color status +:+ "]" +:+ status
                   +:+ "[/bold " +:+ get_status_color status +:+ "]"),
             time), Sample.asked_1)).
Proof.
  apply (deploy_cells_of_first
           (Sample.transport (Sample.listing [Sample.web])) Sample.utc_zone
           Sample.web Sample.listed Sample.asked_1 [Sample.deploy]).
  - vm_compute. reflexivity.
  - vm_compute. reflexivity.
Defined.

Lemma malformed_deploy_is_inline_witness :
  deploy_part unit (canned (PList [envelope "deploy" (PInt 3)]))
    Sample.utc_zone Sample.web Sample.start
  = (inr (error_cell, na), State unit tt [GetDeploys (PStr "srv-1") 1]).
Proof.
  apply (malformed_deploy_is_inline
           (canned (PList [envelope "deploy" (PInt 3)])) Sample.utc_zone
           Sample.web Sample.start
           (State unit tt [GetDeploys (PStr "srv-1") 1]) (PInt 3) []).
  - vm_compute. reflexivity.
  - vm_compute. reflexivity.
  - left. intros d. discriminate.
Defined.

Lemma cron_table_rows_witness :
  Forall2 (cron_row_cells Sample.utc_zone)
    (List.filter is_cron_job [Sample.web; Sample.cron])
    (rows (extend cron_table_header [Sample.cron_row])).
Proof.
  apply (cron_table_rows
           (Sample.transport (Sample.listing [Sample.web; Sample.cron]))
           Sample.utc_zone Sample.start Sample.listed Sample.asked_1
           [Sample.web; Sample.cron]
           (Sample.both_tables [Sample.web_row; Sample.cron_main_row]
              [Sample.cron_row])
           (extend cron_table_header [Sample.cron_row])).
  - vm_compute. reflexivity.
  - vm_compute. reflexivity.
  - reflexivity.
Defined.

Lemma null_details_leave_build_witness :
  build_services_output unit (Sample.transport (Sample.listing [broken_cron]))
    Sample.utc_zone Sample.start
  = (inl (Exn AttributeError
            ("'" +:+ type_name PNone +:+ "' object has no attribute 'get'")),
     Sample.listed).
Proof.
  apply (null_details_leave_build
           (Sample.transport (Sample.listing [broken_cron])) Sample.utc_zone
           Sample.start Sample.listed Sample.listed
           [broken_cron] [] []
           (extend services_table [["service-8"; "cron_job"; "N/A"; "N/A"; "N/A"]])
           broken_cron PNone
           (list_to_map [("id", PStr "srv-8"); ("name", PStr "service-8");
                         ("type", PStr "cron_job"); ("serviceDetails", PNone)])
           []).
  - vm_compute. reflexivity.
  - vm_compute. reflexivity.
  - vm_compute. reflexivity.
  - reflexivity.
  - reflexivity.
  - vm_compute. reflexivity.
  - intros dd. discriminate.
Defined.

Lemma tables_keep_their_columns_witness :
  let out := Sample.both_tables [Sample.web_row; Sample.cron_main_row]
               [Sample.cron_row] in
  title (main_table out) = Some "Render Services" /\
  (header <$> columns (main_table out))
  = ["Name"; "Type"; "Status"; "Latest Deploy"; "Updated"] /\
  shaped 5 (main_table out) /\
  forall ct, cron_table_of out = Some ct ->
    title ct = Some "Cron Jobs" /\
    (header <$> columns ct) = ["Name"; "Schedule"; "Last Run"; "Status"] /\
    shaped 4 ct.
Proof.
  apply (tables_keep_their_columns
           (Sample.transport (Sample.listing [Sample.web; Sample.cron]))
           Sample.utc_zone Sample.start Sample.listed Sample.asked_1
           [Sample.web; Sample.cron]).
  - vm_compute. reflexivity.
  - discriminate.
  - vm_compute. reflexivity.
Defined.

(** ** [format_timestamp]: what it raises, what it prints *)

Lemma astimezone_error (lz : localzone) (dt : datetime) (e : exn) :
  astimezone lz dt = inl e -> e = date_out_of_range.
Proof.
  unfold astimezone.
  assert (H : forall d delta z e', add_us d delta z = inl e' ->
                                   e' = date_out_of_range).
  { intros d delta z e'. unfold add_us.
    destruct (shift_days _ _) as [[y m] d']. destruct (_ && _); [discriminate|].
    now intros [= <-]. }
  destruct (add_us dt _ (Some utc)) as [e'|u] eqn:Hu.
  - intros [= <-]. eapply H. exact Hu.
  - apply H.
Qed.


Lemma append_assoc (a b c : string) : (a +:+ b) +:+ c = a +:+ (b +:+ c).
Proof.
  induction a as [|x a IH]; [reflexivity|].
  change (String x ((a +:+ b) +:+ c) = String x (a +:+ (b +:+ c))).
  now rewrite IH.
Qed.

Lemma str_replace_char_app (c : ascii) (new a b : string) :
  str_replace_char c new (a +:+ b)
  = str_replace_char c new a +:+ str_replace_char c new b.
Proof.
  induction a as [|x a IH]; [reflexivity|].
  change (String x a +:+ b) with (String x (a +:+ b)).
  cbn [str_replace_char]. rewrite IH.
  destruct (Ascii.eqb x c); [now rewrite append_assoc|reflexivity].
Qed.

(** X16: a final ["Z"] is read as the offset ["+00:00"]: a timestamp
    that parses with ["+00:00"] at its end is printed the same when it
    ends with ["Z"] instead. *)
Theorem format_timestamp_Z_is_utc (lz : localzone) (s : string) (dt : datetime) :
  fromisoformat (str_replace_char "Z" "+00:00" (s +:+ "+00:00")) = inr dt ->
  format_timestamp lz (PStr (s +:+ "Z"))
  = format_timestamp lz (PStr (s +:+ "+00:00")).
Proof.
  intros Hp.
  assert (Hne : forall t, s +:+ String t "" <> "" /\ s +:+ "+00:00" <> "")
    by (intros t; destruct s; split; discriminate).
  rewrite !format_timestamp_str by apply (Hne "Z"%char).
  rewrite str_replace_char_app in Hp.
  rewrite !str_replace_char_app.
  change (str_replace_char "Z" "+00:00" "Z") with "+00:00".
  change (str_replace_char "Z" "+00:00" "+00:00") with "+00:00" in *.
  now rewrite Hp.
Qed.

Lemma format_timestamp_Z_is_utc_witness :
  format_timestamp Sample.cet_zone (PStr ("2025-11-25T12:34:56" +:+ "Z"))
  = format_timestamp Sample.cet_zone (PStr ("2025-11-25T12:34:56" +:+ "+00:00")).
Proof.
  apply (format_timestamp_Z_is_utc Sample.cet_zone "2025-11-25T12:34:56"
           (Datetime 2025 11 25 12 34 56 0 (Some utc))).
  vm_compute. reflexivity.
Defined.


(** *** The conversion in one step *)

Lemma iter_next_prev_more (m k : nat) (x : date) :
  valid_date x ->
  Nat.iter (m + k) next_day (Nat.iter k prev_day x) = Nat.iter m next_day x.
Proof. intros Hx. now rewrite Nat.iter_add, iter_next_prev. Qed.

Lemma iter_next_prev_less (a m : nat) (x : date) :
  valid_date x ->
  Nat.iter a next_day (Nat.iter (a + m) prev_day x) = Nat.iter m prev_day x.
Proof.
  intros Hx. rewrite Nat.iter_add, iter_next_prev; [reflexivity|].
  now apply iter_prev_valid.
Qed.

Lemma iter_prev_next_more (m k : nat) (x : date) :
  valid_date x ->
  Nat.iter (m + k) prev_day (Nat.iter k next_day x) = Nat.iter m prev_day x.
Proof. intros Hx. now rewrite Nat.iter_add, iter_prev_next. Qed.

Lemma iter_prev_next_less (a m : nat) (x : date) :
  valid_date x ->
  Nat.iter a prev_day (Nat.iter (a + m) next_day x) = Nat.iter m next_day x.
Proof.
  intros Hx. rewrite Nat.iter_add, iter_prev_next; [reflexivity|].
  now apply iter_next_valid.
Qed.

(** Shifting by [b] days and then by [a] days is shifting by [a + b]. *)
Lemma shift_days_add (a b : Z) (x : date) :
  valid_date x -> shift_days a (shift_days b x) = shift_days (a + b) x.
Proof.
  intros Hx. unfold shift_days.
  destruct (Z.leb_spec 0 a) as [Ha|Ha], (Z.leb_spec 0 b) as [Hb|Hb],
    (Z.leb_spec 0 (a + b)) as [Hab|Hab]; try lia.
  - rewrite <- Nat.iter_add. f_equal. lia.
  - replace (Z.to_nat a) with (Z.to_nat (a + b) + Z.to_nat (- b))%nat by lia.
    now apply iter_next_prev_more.
  - replace (Z.to_nat (- b))
      with (Z.to_nat a + Z.to_nat (- (a + b)))%nat by lia.
    now apply iter_next_prev_less.
  - replace (Z.to_nat b)
      with (Z.to_nat (- a) + Z.to_nat (a + b))%nat by lia.
    now apply iter_prev_next_less.
  - replace (Z.to_nat (- a))
      with (Z.to_nat (- (a + b)) + Z.to_nat b)%nat by lia.
    now apply iter_prev_next_more.
  - rewrite <- Nat.iter_add. f_equal. lia.
Qed.

Lemma add_us_moved (dt r : datetime) (delta : Z) (z : option tzinfo) :
  add_us dt delta z = inr r -> r = moved dt delta z.
Proof.
  unfold add_us, moved, at_time.
  destruct (shift_days _ (date_of dt)) as [[y m] d].
  destruct (_ && _); [|discriminate]. now intros [= <-].
Qed.

(** Converting to UTC and then to the local zone moves the wall clock
    by the difference of the two offsets. *)
Lemma astimezone_moved (lz : localzone) (dt local : datetime) :
  well_formed dt ->
  astimezone lz dt = inr local ->
  let o := utcoffset (self_zone lz dt) in
  let z := local_timezone lz (moved dt (- o) (Some utc)) in
  local = moved dt (utcoffset z - o) (Some z).
Proof.
  intros (_ & Hdate & Htime & _) Hast. cbv zeta. unfold astimezone in Hast.
  destruct (add_us dt _ (Some utc)) as [e|u] eqn:Hu; [discriminate|].
  pose proof (add_us_moved _ _ _ _ Hu) as Hum.
  apply add_us_inv in Hu as (Hdu & Htu & _).
  apply add_us_moved in Hast. rewrite Hast. rewrite <- Hum.
  unfold moved at 1. rewrite Hdu, Htu.
  rewrite shift_days_add by assumption.
  set (o := utcoffset (self_zone lz dt)).
  set (o' := utcoffset (local_timezone lz u)).
  set (t := time_us dt) in *.
  unfold moved. f_equal.
  - f_equal. unfold us_per_day, us_per_second in *.
    Z.div_mod_to_equations. lia.
  - unfold us_per_day, us_per_second in *. Z.div_mod_to_equations. lia.
Qed.



(** ** The command line *)

Section CliProps.

Context {World : Type}.
Variable http_get : request -> World -> result response * World.
Variable lz : localzone.
Variable now : World -> datetime.
Variable sleep : Z -> World -> result unit * World.

Local Abbreviation T := (terminal World).
Local Abbreviation get_services' := (get_services World http_get).
Local Abbreviation build' := (build_services_output World http_get lz).
Local Abbreviation generate_display' := (generate_display World http_get lz now).
Local Abbreviation live_loop' := (live_loop World http_get lz now sleep).
Local Abbreviation main' := (main World http_get lz now sleep).

(** X18: without a key ([RENDER_API_KEY] unset or empty) [main] prints
    the error line and exits with code 1; no request is sent, nothing
    else is shown, no client is opened. *)
Theorem main_without_key (once : bool) (api_key : option string) (fuel : nat)
    (t : T) :
  api_key = None \/ api_key = Some "" ->
  main' once api_key fuel t
  = (Exit 1,
     Terminal World (base _ t) (console _ t ++ [missing_key])%list
       (frames _ t) (slept _ t) (closed _ t)).
Proof. intros [-> | ->]; reflexivity. Qed.

Lemma generate_display_keeps (t : T) :
  let t' := (generate_display' t).2 in
  console _ t' = console _ t /\ frames _ t' = frames _ t /\
  slept _ t' = slept _ t /\ closed _ t' = closed _ t.
Proof.
  cbv zeta. unfold generate_display, mbind, C_bind, call, timestamp.
  destruct (build' (base _ t)) as [[e|out] st]; cbn [snd console frames slept closed];
    [auto|].
  destruct (stamp lz _); cbn; auto.
Qed.

Lemma live_loop_counts (fuel : nat) (t t' : T) (r : option exn) :
  live_loop' fuel t = (r, t') ->
  exists k,
    (k <= fuel)%nat /\
    length (frames _ t') = (length (frames _ t) + k)%nat /\
    console _ t' = console _ t /\
    closed _ t' = closed _ t /\
    match r with
    | None => k = fuel /\ slept _ t' = (slept _ t ++ replicate k 10)%list
    | Some _ =>
        (k < fuel)%nat /\ slept _ t' = (slept _ t ++ replicate (S k) 10)%list
    end.
Proof.
  revert t. induction fuel as [|n IH]; intros t H.
  { injection H as <- <-. exists 0%nat. cbn. rewrite app_nil_r.
    repeat split; lia. }
  cbn [live_loop] in H. unfold time_sleep in H.
  destruct (sleep 10 (world _ (base _ t))) as [[e|[]] w1].
  { injection H as <- <-. exists 0%nat. cbn.
    repeat split; try reflexivity; lia. }
  set (t1 := Terminal World _ _ _ _ _) in H.
  pose proof (generate_display_keeps t1) as Hk. cbv zeta in Hk.
  destruct (generate_display' t1) as [[e|d] t2]; cbn [snd] in Hk;
    destruct Hk as (Hc & Hf & Hs & Hcl).
  { injection H as <- <-. exists 0%nat. rewrite Hc, Hf, Hs, Hcl. subst t1. cbn.
    repeat split; try reflexivity; lia. }
  apply IH in H as (k & Hk & Hfr & Hco & Hclo & Hres).
  exists (S k). cbn [show snd console frames slept closed] in *.
  rewrite Hfr, Hco, Hclo, Hc, Hcl, Hf, length_app. subst t1.
  cbn [console frames closed length].
  split; [lia|]. split; [lia|]. split; [reflexivity|]. split; [reflexivity|].
  destruct r; destruct Hres as [Hn Hsl]; rewrite Hsl, Hs;
    cbn [slept]; rewrite <- app_assoc; (split; [lia|reflexivity]).
Qed.

(** X19: while the live loop turns, every refresh comes after a sleep of
    10 seconds: after the loop has turned [k] times there are [k] more
    frames and [k] more sleeps, all of 10; when an exception ends the
    loop, the sleep of the unfinished turn was started too.  Nothing is
    printed on the console meanwhile. *)
Theorem live_loop_sleeps (fuel : nat) (t t' : T) (r : option exn) :
  live_loop' fuel t = (r, t') ->
  exists k,
    (k <= fuel)%nat /\
    length (frames _ t') = (length (frames _ t) + k)%nat /\
    console _ t' = console _ t /\
    closed _ t' = closed _ t /\
    match r with
    | None => k = fuel /\ slept _ t' = (slept _ t ++ replicate k 10)%list
    | Some _ =>
        (k < fuel)%nat /\ slept _ t' = (slept _ t ++ replicate (S k) 10)%list
    end.
Proof. apply live_loop_counts. Qed.

(** X20: when the listing fails during a turn of the live loop, the
    loop goes on: the frame of that turn shows the time and the error
    table, and the next turn follows. *)
Theorem live_survives_listing_failure (n : nat) (t : T) (w1 : World)
    (e : exn) (st2 : state World) (ts : string) :
  sleep 10 (world _ (base _ t)) = (inr tt, w1) ->
  get_services' (State _ w1 (sent _ (base _ t))) = (inl e, st2) ->
  is_Exception e = true ->
  stamp lz (now (world _ st2)) = inr ts ->
  exists tbl,
    rows tbl = [error_row e] /\
    live_loop' (S n) t
    = live_loop' n
        (Terminal World st2 (console _ t)
           (frames _ t
              ++ [RGroup [timestamp_text ts; RText "" ""; RTable tbl]])%list
           (slept _ t ++ [10])%list (closed _ t)).
Proof.
  intros Hsl Hs He Hts. eexists. split; [|].
  2:{ cbn [live_loop]. unfold time_sleep at 1. rewrite Hsl.
      unfold generate_display at 1. unfold mbind, C_bind, call, timestamp.
      cbn [base console frames slept closed].
      unfold build_services_output. rewrite Hs, He.
      cbn [lift error_table mbind result_bind mret result_ret base world].
      rewrite Hts. reflexivity. }
  reflexivity.
Qed.

(** X21: in single-shot mode a failed listing is no failure of the
    program: [main] prints the time, then the error table, closes the
    client and exits with code 0. *)
Theorem once_exits_zero_on_listing_failure (api_key : option string)
    (fuel : nat) (t : T) (e : exn) (st' : state World) (ts : string) :
  no_key api_key = false ->
  stamp lz (now (world _ (base _ t))) = inr ts ->
  get_services' (base _ t) = (inl e, st') ->
  is_Exception e = true ->
  exists tbl,
    rows tbl = [error_row e] /\
    main' true api_key fuel t
    = (Exit 0,
       Terminal World st'
         (console _ t
            ++ [RStr ("[dim]Last updated: " +:+ ts +:+ "[/dim]" +:+ nl);
                RTable tbl])%list
         (frames _ t) (slept _ t) true).
Proof.
  intros Hk Hts Hs He. eexists. split; [|].
  2:{ unfold main. rewrite Hk. unfold run_once, display_services.
      unfold mbind, C_bind, timestamp, console_print, call.
      rewrite Hts. cbn [base console frames slept closed].
      unfold build_services_output. rewrite Hs, He.
      cbn [lift error_table mbind result_bind mret result_ret].
      cbn. rewrite <- app_assoc. reflexivity. }
  reflexivity.
Qed.

(** X22: the live mode ends in one of two ways: after an interrupt of
    the user, with ["Stopped"] as the last line printed and exit code 0,
    or with another exception that leaves [main]; in both the client is
    closed.  While the loop turns, the client stays as it was. *)
Theorem live_mode_outcomes (api_key : option string) (fuel : nat) (t t' : T)
    (out : outcome) :
  no_key api_key = false ->
  main' false api_key fuel t = (out, t') ->
  match out with
  | Exit code =>
      code = 0 /\ last (console _ t') = Some stopped /\ closed _ t' = true
  | Raised e =>
      is_class KeyboardInterrupt e = false /\
      console _ t' = console _ t /\ closed _ t' = true
  | Running => closed _ t' = closed _ t
  end.
Proof.
  intros Hk H. unfold main in H. rewrite Hk in H. unfold run_live in H.
  pose proof (generate_display_keeps t) as Hg. cbv zeta in Hg.
  destruct (generate_display' t) as [[e|d] t1]; cbn [snd] in Hg;
    destruct Hg as (Hc & Hf & Hs & Hcl).
  { destruct (is_class KeyboardInterrupt e) eqn:He; injection H as <- <-; cbn.
    - rewrite last_snoc. auto.
    - auto. }
  destruct (live_loop' fuel (show World d t1).2) as [[e|] t2] eqn:Hl;
    apply live_loop_counts in Hl as (k & _ & _ & Hco & Hclo & _);
    cbn [fst snd show console closed] in *.
  - destruct (is_class KeyboardInterrupt e) eqn:He; injection H as <- <-; cbn.
    + rewrite last_snoc. auto.
    + rewrite Hco, Hc. auto.
  - injection H as <- <-. now rewrite Hclo, Hcl.
Qed.

End CliProps.

Lemma main_without_key_witness :
  main nat (steady (Sample.listing [])) Sample.utc_zone clock_noon nap
    true None 0 idle
  = (Exit 1, Terminal nat (State nat 2%nat []) [missing_key] [] [] false).
Proof.
  apply (main_without_key (steady (Sample.listing [])) Sample.utc_zone
           clock_noon nap true None 0 idle).
  left. reflexivity.
Defined.

Lemma live_loop_sleeps_witness :
  exists k,
    (k <= 5)%nat /\
    length [noon_frame no_services_row; noon_frame no_services_row]
    = (length (frames nat idle) + k)%nat /\
    @nil renderable = console nat idle /\
    false = closed nat idle /\
    (k < 5)%nat /\
    [10; 10; 10] = (slept nat idle ++ replicate (S k) 10)%list.
Proof.
  apply (live_loop_sleeps (steady (Sample.listing [])) Sample.utc_zone
           clock_noon nap 5 idle
           (Terminal nat (State nat 0%nat [GetServices; GetServices]) []
              [noon_frame no_services_row; noon_frame no_services_row]
              [10; 10; 10] false)
           (Some (Exn KeyboardInterrupt ""))).
  vm_compute. reflexivity.
Defined.

Lemma live_survives_listing_failure_witness :
  exists tbl,
    rows tbl = [error_row Sample.api_error] /\
    live_loop nat (steady (inl Sample.api_error)) Sample.utc_zone clock_noon nap
      1 idle
    = live_loop nat (steady (inl Sample.api_error)) Sample.utc_zone clock_noon
        nap 0
        (Terminal nat (State nat 1%nat [GetServices]) (console nat idle)
           (frames nat idle
              ++ [RGroup [timestamp_text "2025-11-25 12:00:00 UTC";
                          RText "" ""; RTable tbl]])%list
           (slept nat idle ++ [10])%list (closed nat idle)).
Proof.
  apply (live_survives_listing_failure (steady (inl Sample.api_error))
           Sample.utc_zone clock_noon nap 0%nat idle 1%nat Sample.api_error
           (State nat 1%nat [GetServices]) "2025-11-25 12:00:00 UTC").
  - reflexivity.
  - reflexivity.
  - reflexivity.
  - vm_compute. reflexivity.
Defined.

Lemma once_exits_zero_on_listing_failure_witness :
  exists tbl,
    rows tbl = [error_row Sample.api_error] /\
    main nat (steady (inl Sample.api_error)) Sample.utc_zone clock_noon nap
      true (Some "rnd_key") 0 idle
    = (Exit 0,
       Terminal nat (State nat 2%nat [GetServices])
         (console nat idle
            ++ [RStr ("[dim]Last updated: " +:+ "2025-11-25 12:00:00 UTC"
                      +:+ "[/dim]" +:+ nl);
                RTable tbl])%list
         (frames nat idle) (slept nat idle) true).
Proof.
  apply (once_exits_zero_on_listing_failure (steady (inl Sample.api_error))
           Sample.utc_zone clock_noon nap (Some "rnd_key") 0 idle
           Sample.api_error (State nat 2%nat [GetServices])
           "2025-11-25 12:00:00 UTC").
  - reflexivity.
  - vm_compute. reflexivity.
  - reflexivity.
  - reflexivity.
Defined.

Lemma live_mode_outcomes_witness :
  0 = 0 /\
  last [stopped] = Some stopped /\
  closed nat
    (Terminal nat (State nat 0%nat [GetServices; GetServices; GetServices])
       [stopped]
       [noon_frame no_services_row; noon_frame no_services_row;
        noon_frame no_services_row]
       [10; 10; 10] true) = true.
Proof.
  apply (live_mode_outcomes (steady (Sample.listing [])) Sample.utc_zone
           clock_noon nap (Some "rnd_key") 5 idle
           (Terminal nat (State nat 0%nat [GetServices; GetServices; GetServices])
              [stopped]
              [noon_frame no_services_row; noon_frame no_services_row;
               noon_frame no_services_row]
              [10; 10; 10] true)
           (Exit 0)).
  - reflexivity.
  - vm_compute. reflexivity.
Defined.
